(** * The [tencentcloud_sqlserver_basic_instances] data source

    A shallow embedding of
    [tencentcloud/data_source_tc_sqlserver_basic_instances.go]: the read
    handler [dataSourceTencentCloudSqlserverBasicInstanceRead] and the data it
    moves between the listing service, the tag service, the Terraform
    resource data and the output file.

    The handler is effectful.  It is embedded in a state-and-error monad
    whose state holds the outside world (the cloud behind the SDK client and
    the file system), the [schema.ResourceData] of the call and the trace of
    the calls made so far, each with what it returned.  A Go panic (a nil
    pointer dereference) is a third kind of result, next to a normal return
    and a returned [error].  Logging ([logElapsed], [log.Printf]) is left
    out. *)

From stdpp Require Import gmap strings list fin_maps.
From Stdlib Require Import ZArith.

Local Open Scope string_scope.
Local Open Scope Z_scope.
Local Open Scope list_scope.

(** ** Data *)

(** Go's [error] values; the handler only tests them against [nil] and hands
    them on, so the message is all that is kept. *)
Definition error := string.

(** [sqlserver.DBInstance] of the vendor SDK, restricted to the fields the
    handler reads.  Every field is a pointer ([*string] or [*int64]);
    [None] is [nil].  The handler never computes with the numbers, it copies
    them and compares one of them with 1, so an [int64] is a [Z]. *)
Record DBInstance := {
  InstanceId : option string;
  Name : option string;
  ProjectId : option Z;
  Storage : option Z;
  Memory : option Z;
  Zone : option string;
  CreateTime : option string;
  UniqVpcId : option string;
  UniqSubnetId : option string;
  Version : option string;
  Vip : option string;
  Vport : option Z;
  UsedStorage : option Z;
  Status : option Z;
  Cpu : option Z;
  PayMode : option Z
}.

(** The dynamic values the handler stores in a [map[string]interface{}]:
    the instance's pointers as they are, a string constant, and the tag map
    ([map[string]string]). *)
Inductive value :=
| VStringPtr (p : option string)
| VInt64Ptr (p : option Z)
| VString (s : string)
| VTags (m : gmap string string).

(** [TencentCloudClient.apiV3Conn]: the handler reads its [Region]. *)
Record TencentCloudClient := { Region : string }.

(** [schema.ResourceData] for this data source.  The [cfg_] fields are the
    arguments of the schema as [d.Get] reads them ([id], [vpc_id],
    [subnet_id] and [result_output_file] of [TypeString], [project_id] of
    [TypeInt], all optional: [None] is an argument that is not set); the
    other two are what the handler writes: the resource ID and the computed
    [instance_list] attribute. *)
Record ResourceData := {
  cfg_id : option string;
  cfg_project_id : option Z;
  cfg_vpc_id : option string;
  cfg_subnet_id : option string;
  cfg_result_output_file : option string;
  rd_Id : string;
  rd_instance_list : option (list (gmap string value))
}.

(** [d.Get(key).(string)]: the value, or the zero value of the type. *)
Definition Get_string (o : option string) : string := default "" o.

(** [d.GetOk(key)] of the plugin SDK: the value, and whether the key has been
    set to a value other than the zero value of its type. *)
Definition GetOk_string (o : option string) : string * bool :=
  match o with
  | Some s => (s, negb (String.eqb s ""))
  | None => ("", false)
  end.

Definition GetOk_int (o : option Z) : Z * bool :=
  match o with
  | Some z => (z, negb (z =? 0))
  | None => (0, false)
  end.

(** [d.SetId(v)] of the plugin SDK: it sets the resource ID and also writes
    [v] as the attribute [id], which this data source declares as an
    argument, so a later [d.Get("id")] returns [v]. *)
Definition SetId (v : string) (d : ResourceData) : ResourceData :=
  {| cfg_id := Some v; cfg_project_id := cfg_project_id d;
     cfg_vpc_id := cfg_vpc_id d; cfg_subnet_id := cfg_subnet_id d;
     cfg_result_output_file := cfg_result_output_file d;
     rd_Id := v; rd_instance_list := rd_instance_list d |}.

Definition Set_instance_list (v : list (gmap string value)) (d : ResourceData)
  : ResourceData :=
  {| cfg_id := cfg_id d; cfg_project_id := cfg_project_id d;
     cfg_vpc_id := cfg_vpc_id d; cfg_subnet_id := cfg_subnet_id d;
     cfg_result_output_file := cfg_result_output_file d;
     rd_Id := rd_Id d; rd_instance_list := Some v |}.

(** ** Calls and their trace *)

(** One constructor per call the handler makes to a collaborator, with the
    arguments in the order of the Go call (the context argument left out)
    and, last, what the call returned. *)
Inductive event :=
| CallDescribeSqlserverInstances
    (instanceId : string) (projectId : Z) (vpcId subnetId : string)
    (netType : Z) (res : list DBInstance * option error)
| CallDescribeResourceTags
    (serviceType resourceType region resourceId : string)
    (res : gmap string string * option error)
| CallSetId (v : string)
| CallSet (key : string) (v : list (gmap string value)) (res : option error)
| CallWriteToFile (path : string) (v : list (gmap string value))
    (res : option error).

Definition is_listing (e : event) : bool :=
  match e with CallDescribeSqlserverInstances _ _ _ _ _ _ => true | _ => false end.

Definition is_tag_call (e : event) : bool :=
  match e with CallDescribeResourceTags _ _ _ _ _ => true | _ => false end.

Definition is_file_write (e : event) : bool :=
  match e with CallWriteToFile _ _ _ => true | _ => false end.

(** A call that changes the Terraform state or the file system. *)
Definition is_update (e : event) : bool :=
  match e with
  | CallSetId _ | CallSet _ _ _ | CallWriteToFile _ _ _ => true
  | _ => false
  end.

(** The collaborators, opaque to the handler.  Each one reads and may change
    the world; a pair [(v, err)] is Go's two results. *)
Record Services (World : Type) := {
  DescribeSqlserverInstances :
    string -> Z -> string -> string -> Z -> World ->
    (list DBInstance * option error) * World;
  DescribeResourceTags :
    string -> string -> string -> string -> World ->
    (gmap string string * option error) * World;
  ResourceData_Set :
    string -> list (gmap string value) -> World -> option error * World;
  writeToFile :
    string -> list (gmap string value) -> World -> option error * World
}.

Arguments DescribeSqlserverInstances {World}.
Arguments DescribeResourceTags {World}.
Arguments ResourceData_Set {World}.
Arguments writeToFile {World}.

(** ** The monad *)

Inductive result (A : Type) :=
| Ret (a : A)
| Err (e : error)
| Panic.

Arguments Ret {A}.
Arguments Err {A}.
Arguments Panic {A}.

Record St (World : Type) := {
  world : World;
  rdata : ResourceData;
  trace : list event
}.

Arguments world {World}.
Arguments rdata {World}.
Arguments trace {World}.

Definition M (World A : Type) : Type := St World -> result A * St World.

Definition ret {World A} (a : A) : M World A := fun st => (Ret a, st).

Definition bind {World A B} (m : M World A) (k : A -> M World B) : M World B :=
  fun st =>
    match m st with
    | (Ret a, st') => k a st'
    | (Err e, st') => (Err e, st')
    | (Panic, st') => (Panic, st')
    end.

(** [return err] with [err != nil]. *)
Definition fail {World A} (e : error) : M World A := fun st => (Err e, st).

(** [*p]: a nil pointer panics. *)
Definition deref {World A} (p : option A) : M World A :=
  fun st => match p with Some a => (Ret a, st) | None => (Panic, st) end.

(** stdpp's monad notations: [x ← m; k] and [m;; k]. *)
#[export] Instance M_ret {World} : MRet (M World) := @ret World.
#[export] Instance M_bind {World} : MBind (M World) :=
  fun A B k m => bind m k.

Section Handler.
Context {World : Type}.

(** [helper.DataResourceIdsHash], [COMMON_PAYTYPE_PREPAID] and
    [COMMON_PAYTYPE_POSTPAID] are declared in other files of the provider;
    the handler is embedded over any hash function and any two constants. *)
Variable DataResourceIdsHash : list string -> string.
Variable COMMON_PAYTYPE_PREPAID : string.
Variable COMMON_PAYTYPE_POSTPAID : string.
Variable svc : Services World.

Definition get_d : M World ResourceData := fun st => (Ret (rdata st), st).

Definition call_DescribeSqlserverInstances
    (instanceId : string) (projectId : Z) (vpcId subnetId : string)
    (netType : Z) : M World (list DBInstance * option error) :=
  fun st =>
    let '(res, w) :=
      DescribeSqlserverInstances svc instanceId projectId vpcId subnetId
        netType (world st) in
    (Ret res,
     {| world := w; rdata := rdata st;
        trace := trace st ++
          [CallDescribeSqlserverInstances instanceId projectId vpcId
             subnetId netType res] |}).

Definition call_DescribeResourceTags
    (serviceType resourceType region resourceId : string)
  : M World (gmap string string * option error) :=
  fun st =>
    let '(res, w) :=
      DescribeResourceTags svc serviceType resourceType region resourceId
        (world st) in
    (Ret res,
     {| world := w; rdata := rdata st;
        trace := trace st ++
          [CallDescribeResourceTags serviceType resourceType region
             resourceId res] |}).

Definition call_SetId (v : string) : M World unit :=
  fun st =>
    (Ret tt, {| world := world st; rdata := SetId v (rdata st);
                trace := trace st ++ [CallSetId v] |}).

(** [d.Set("instance_list", list)]: the attribute is written when the SDK
    accepts the value. *)
Definition call_Set_instance_list (v : list (gmap string value))
  : M World (option error) :=
  fun st =>
    let '(res, w) := ResourceData_Set svc "instance_list" v (world st) in
    (Ret res,
     {| world := w;
        rdata := match res with
                 | None => Set_instance_list v (rdata st)
                 | Some _ => rdata st
                 end;
        trace := trace st ++ [CallSet "instance_list" v res] |}).

Definition call_writeToFile (path : string) (v : list (gmap string value))
  : M World (option error) :=
  fun st =>
    let '(res, w) := writeToFile svc path v (world st) in
    (Ret res,
     {| world := w; rdata := rdata st;
        trace := trace st ++ [CallWriteToFile path v res] |}).

(** [return e] for an [error] that may be nil. *)
Definition return_error (e : option error) : M World unit :=
  match e with Some e => fail e | None => ret tt end.

(** The fifteen assignments at the head of the loop body. *)
Definition copied_fields (v : DBInstance) : gmap string value :=
  let listItem : gmap string value := ∅ in
  let listItem := <["id" := VStringPtr (InstanceId v)]> listItem in
  let listItem := <["name" := VStringPtr (Name v)]> listItem in
  let listItem := <["project_id" := VInt64Ptr (ProjectId v)]> listItem in
  let listItem := <["storage" := VInt64Ptr (Storage v)]> listItem in
  let listItem := <["memory" := VInt64Ptr (Memory v)]> listItem in
  let listItem := <["availability_zone" := VStringPtr (Zone v)]> listItem in
  let listItem := <["create_time" := VStringPtr (CreateTime v)]> listItem in
  let listItem := <["vpc_id" := VStringPtr (UniqVpcId v)]> listItem in
  let listItem := <["subnet_id" := VStringPtr (UniqSubnetId v)]> listItem in
  let listItem := <["engine_version" := VStringPtr (Version v)]> listItem in
  let listItem := <["vip" := VStringPtr (Vip v)]> listItem in
  let listItem := <["vport" := VInt64Ptr (Vport v)]> listItem in
  let listItem := <["used_storage" := VInt64Ptr (UsedStorage v)]> listItem in
  let listItem := <["status" := VInt64Ptr (Status v)]> listItem in
  let listItem := <["cpu" := VInt64Ptr (Cpu v)]> listItem in
  listItem.

(** The body of [for _, v := range instanceList]: the new [listItem] and
    the instance ID appended to [ids]. *)
Definition loop_body (tcClient : TencentCloudClient) (v : DBInstance)
  : M World (gmap string value * string) :=
  let listItem := copied_fields v in
  payMode ← deref (PayMode v);
  let listItem :=
    if payMode =? 1
    then <["charge_type" := VString COMMON_PAYTYPE_PREPAID]> listItem
    else <["charge_type" := VString COMMON_PAYTYPE_POSTPAID]> listItem in
  resourceId ← deref (InstanceId v);
  '(tagList, err) ←
    call_DescribeResourceTags "sqlserver" "instance" (Region tcClient)
      resourceId;
  match err with
  | Some e => fail e
  | None =>
      let listItem := <["tags" := VTags tagList]> listItem in
      instanceId ← deref (InstanceId v);
      ret (listItem, instanceId)
  end.

(** The loop, with [ids] and [list] as accumulators ([append] adds at the
    end). *)
Fixpoint flatten_loop (tcClient : TencentCloudClient)
    (instanceList : list DBInstance)
    (ids : list string) (list : list (gmap string value))
  : M World (Datatypes.list string * Datatypes.list (gmap string value)) :=
  match instanceList with
  | [] => ret (ids, list)
  | v :: rest =>
      '(listItem, instanceId) ← loop_body tcClient v;
      flatten_loop tcClient rest (ids ++ [instanceId]) (list ++ [listItem])
  end.

Definition dataSourceTencentCloudSqlserverBasicInstanceRead
    (meta : TencentCloudClient) : M World unit :=
  d ← get_d;
  let tcClient := meta in
  let id := Get_string (cfg_id d) in
  let projectId := -1 in
  let vpcId := "" in
  let subnetId := "" in
  let projectId :=
    match GetOk_int (cfg_project_id d) with
    | (v, true) => v
    | (_, false) => projectId
    end in
  let vpcId :=
    match GetOk_string (cfg_vpc_id d) with
    | (v, true) => v
    | (_, false) => vpcId
    end in
  let subnetId :=
    match GetOk_string (cfg_subnet_id d) with
    | (v, true) => v
    | (_, false) => subnetId
    end in
  '(instanceList, err) ←
    call_DescribeSqlserverInstances id projectId vpcId subnetId 1;
  match err with
  | Some e => fail e
  | None =>
      '(ids, list) ← flatten_loop tcClient instanceList [] [];
      call_SetId (DataResourceIdsHash ids);;
      e ← call_Set_instance_list list;
      match e with
      | Some e => fail e
      | None =>
          let '(output, ok) := GetOk_string (cfg_result_output_file d) in
          if ok && negb (String.eqb output "")
          then (r ← call_writeToFile output list; return_error r)
          else ret tt
      end
  end.

(** One invocation of the handler, from an empty trace. *)
Definition run (meta : TencentCloudClient) (d : ResourceData) (w : World)
  : result unit * St World :=
  dataSourceTencentCloudSqlserverBasicInstanceRead meta
    {| world := w; rdata := d; trace := [] |}.

End Handler.

(** ** Vocabulary of the statements *)

(** The error of a tag call, [None] for a tag call that succeeded and for
    every other call. *)
Definition tag_error (e : event) : option error :=
  match e with
  | CallDescribeResourceTags _ _ _ _ (_, err) => err
  | _ => None
  end.

(** A tag call that returned no error. *)
Definition is_good_tag_call (e : event) : bool :=
  match e with
  | CallDescribeResourceTags _ _ _ _ (_, None) => true
  | _ => false
  end.

(** The fifteen fields an output element copies from its instance. *)
Definition copies_fields (v : DBInstance) (item : gmap string value) : Prop :=
  item !! "id" = Some (VStringPtr (InstanceId v)) ∧
  item !! "name" = Some (VStringPtr (Name v)) ∧
  item !! "project_id" = Some (VInt64Ptr (ProjectId v)) ∧
  item !! "storage" = Some (VInt64Ptr (Storage v)) ∧
  item !! "memory" = Some (VInt64Ptr (Memory v)) ∧
  item !! "availability_zone" = Some (VStringPtr (Zone v)) ∧
  item !! "create_time" = Some (VStringPtr (CreateTime v)) ∧
  item !! "vpc_id" = Some (VStringPtr (UniqVpcId v)) ∧
  item !! "subnet_id" = Some (VStringPtr (UniqSubnetId v)) ∧
  item !! "engine_version" = Some (VStringPtr (Version v)) ∧
  item !! "vip" = Some (VStringPtr (Vip v)) ∧
  item !! "vport" = Some (VInt64Ptr (Vport v)) ∧
  item !! "used_storage" = Some (VInt64Ptr (UsedStorage v)) ∧
  item !! "status" = Some (VInt64Ptr (Status v)) ∧
  item !! "cpu" = Some (VInt64Ptr (Cpu v)).

(** The tag call the handler makes for an instance, and where its result
    goes. *)
Definition tag_call_of (region : string) (v : DBInstance) (ev : event)
    (item : gmap string value) : Prop :=
  ∃ resourceId tags,
    InstanceId v = Some resourceId ∧
    ev = CallDescribeResourceTags "sqlserver" "instance" region resourceId
           (tags, None) ∧
    item !! "tags" = Some (VTags tags).

(** The charge type of an output element, decided by the pay mode of its
    instance. *)
Definition charge_type_of (prepaid postpaid : string) (v : DBInstance)
    (item : gmap string value) : Prop :=
  ∃ payMode,
    PayMode v = Some payMode ∧
    (payMode = 1 → item !! "charge_type" = Some (VString prepaid)) ∧
    (payMode ≠ 1 → item !! "charge_type" = Some (VString postpaid)).

(** The error a service call returned, [None] for a call that succeeded and
    for the calls that are not service calls. *)
Definition service_error (e : event) : option error :=
  match e with
  | CallDescribeSqlserverInstances _ _ _ _ _ (_, err) => err
  | CallDescribeResourceTags _ _ _ _ (_, err) => err
  | _ => None
  end.

(** The output element built for an instance with pay mode [p] and tags
    [tags]. *)
Definition item_of (prepaid postpaid : string) (v : DBInstance) (p : Z)
    (tags : gmap string string) : gmap string value :=
  <["tags" := VTags tags]>
    (<["charge_type" := VString (if p =? 1 then prepaid else postpaid)]>
       (copied_fields v)).

(** What a completed loop iteration leaves behind for instance [v]: the tag
    call [ev] and the output element [item]. *)
Definition iteration_of (prepaid postpaid region : string) (v : DBInstance)
    (ev : event) (item : gmap string value) : Prop :=
  ∃ p resourceId tags,
    PayMode v = Some p ∧ InstanceId v = Some resourceId ∧
    ev = CallDescribeResourceTags "sqlserver" "instance" region resourceId
           (tags, None) ∧
    item = item_of prepaid postpaid v p tags.

(** An iteration stopped by its tag call: [ev] is the call, [e] its error. *)
Definition failed_iteration_of (region : string) (v : DBInstance)
    (e : error) (ev : event) : Prop :=
  ∃ resourceId tags,
    is_Some (PayMode v) ∧ InstanceId v = Some resourceId ∧
    ev = CallDescribeResourceTags "sqlserver" "instance" region resourceId
           (tags, Some e).

(** The list a call hands over as the result set: the value of [d.Set] and
    of [writeToFile]. *)
Definition output_of (e : event) : option (list (gmap string value)) :=
  match e with
  | CallSet _ v _ => Some v
  | CallWriteToFile _ v _ => Some v
  | _ => None
  end.

(** The filters of the listing call, read off the configuration. *)
Definition project_filter (d : ResourceData) : Z :=
  match cfg_project_id d with
  | Some z => if z =? 0 then -1 else z
  | None => -1
  end.

Definition listing_call (d : ResourceData)
    (res : list DBInstance * option error) : event :=
  CallDescribeSqlserverInstances
    (default "" (cfg_id d)) (project_filter d)
    (default "" (cfg_vpc_id d)) (default "" (cfg_subnet_id d)) 1 res.

(** The output file the configuration asks for, if any. *)
Definition output_file (d : ResourceData) : option string :=
  match cfg_result_output_file d with
  | Some p => if String.eqb p "" then None else Some p
  | None => None
  end.

Definition no_nil_pointers (v : DBInstance) : Prop :=
  is_Some (PayMode v) ∧ is_Some (InstanceId v).

(** The six ways an invocation can go, each with the result of the handler,
    the resource data it leaves and the calls it made, in order: the listing
    call fails; the loop panics at instance [v], after the iterations for
    [l1]; the tag call for [v] fails, after the iterations for [l1];
    [d.Set] fails; the handler succeeds without an output file; the handler
    writes the output file. *)
Inductive outcome_of (hash : list string -> string)
    (prepaid postpaid : string) (meta : TencentCloudClient)
    (d : ResourceData) : result unit -> ResourceData -> list event -> Prop :=
| listing_failed l e :
    outcome_of hash prepaid postpaid meta d
      (Err e) d [listing_call d (l, Some e)]
| loop_panicked l1 v l2 evs items :
    Forall3 (iteration_of prepaid postpaid (Region meta)) l1 evs items ->
    ¬ no_nil_pointers v ->
    outcome_of hash prepaid postpaid meta d
      Panic d (listing_call d (l1 ++ v :: l2, None) :: evs)
| tag_call_failed l1 v l2 evs items ev e :
    Forall3 (iteration_of prepaid postpaid (Region meta)) l1 evs items ->
    failed_iteration_of (Region meta) v e ev ->
    outcome_of hash prepaid postpaid meta d
      (Err e) d (listing_call d (l1 ++ v :: l2, None) :: evs ++ [ev])
| set_failed l evs items ids e :
    Forall3 (iteration_of prepaid postpaid (Region meta)) l evs items ->
    InstanceId <$> l = Some <$> ids ->
    outcome_of hash prepaid postpaid meta d
      (Err e) (SetId (hash ids) d)
      (listing_call d (l, None) :: evs ++
         [CallSetId (hash ids); CallSet "instance_list" items (Some e)])
| no_output_file l evs items ids :
    Forall3 (iteration_of prepaid postpaid (Region meta)) l evs items ->
    InstanceId <$> l = Some <$> ids ->
    output_file d = None ->
    outcome_of hash prepaid postpaid meta d
      (Ret tt) (Set_instance_list items (SetId (hash ids) d))
      (listing_call d (l, None) :: evs ++
         [CallSetId (hash ids); CallSet "instance_list" items None])
| output_file_written l evs items ids path res :
    Forall3 (iteration_of prepaid postpaid (Region meta)) l evs items ->
    InstanceId <$> l = Some <$> ids ->
    output_file d = Some path ->
    outcome_of hash prepaid postpaid meta d
      (match res with Some e => Err e | None => Ret tt end)
      (Set_instance_list items (SetId (hash ids) d))
      (listing_call d (l, None) :: evs ++
         [CallSetId (hash ids); CallSet "instance_list" items None;
          CallWriteToFile path items res]).

(** ** A scripted world

    A world that answers every call from a script, and keeps the files
    written; the concrete runs below are played in it. *)
Module Scripted.

Record World := {
  listing : list DBInstance * option error;
  tags_of : string -> gmap string string * option error;
  set_result : option error;
  write_result : option error;
  files : list (string * list (gmap string value))
}.

Definition services : Services World := {|
  DescribeSqlserverInstances := fun _ _ _ _ _ w => (listing w, w);
  DescribeResourceTags := fun _ _ _ resourceId w => (tags_of w resourceId, w);
  ResourceData_Set := fun _ _ w => (set_result w, w);
  writeToFile := fun path v w =>
    (write_result w,
     {| listing := listing w; tags_of := tags_of w;
        set_result := set_result w; write_result := write_result w;
        files := files w ++ [(path, v)] |})
|}.

Definition hash (ids : list string) : string := String.concat "-" ids.

Definition instance (id : string) (payMode : Z) : DBInstance := {|
  InstanceId := Some id; Name := Some "db"; ProjectId := Some 0;
  Storage := Some 10; Memory := Some 2; Zone := Some "ap-guangzhou-2";
  CreateTime := Some "2020-01-01 00:00:00"; UniqVpcId := Some "vpc-26w7r56z";
  UniqSubnetId := Some "subnet-lvlr6eeu"; Version := Some "2008R2";
  Vip := Some "10.0.0.4"; Vport := Some 1433; UsedStorage := Some 1;
  Status := Some 2; Cpu := Some 1; PayMode := Some payMode
|}.

Definition two_instances : list DBInstance :=
  [instance "mssql-a" 0; instance "mssql-b" 1].

Definition test_tags (resourceId : string)
  : gmap string string * option error :=
  ({["test" := "test"]}, None).

(** Everything succeeds. *)
Definition healthy : World := {|
  listing := (two_instances, None); tags_of := test_tags;
  set_result := None; write_result := None; files := []
|}.


(** The tag call of the second instance fails. *)
Definition tags_down : World := {|
  listing := (two_instances, None);
  tags_of := fun resourceId =>
    if String.eqb resourceId "mssql-b" then (∅, Some "tags failed")
    else test_tags resourceId;
  set_result := None; write_result := None; files := []
|}.

(** The listing returns an instance whose [PayMode] is nil. *)
Definition nil_pay_mode : World := {|
  listing :=
    ([{| InstanceId := Some "mssql-c"; Name := None; ProjectId := None;
         Storage := None; Memory := None; Zone := None; CreateTime := None;
         UniqVpcId := None; UniqSubnetId := None; Version := None;
         Vip := None; Vport := None; UsedStorage := None; Status := None;
         Cpu := None; PayMode := None |}], None);
  tags_of := test_tags;
  set_result := None; write_result := None; files := []
|}.

Definition client : TencentCloudClient := {| Region := "ap-guangzhou" |}.

Definition no_arguments : ResourceData := {|
  cfg_id := None; cfg_project_id := None; cfg_vpc_id := None;
  cfg_subnet_id := None; cfg_result_output_file := None;
  rd_Id := ""; rd_instance_list := None
|}.

Definition all_arguments : ResourceData := {|
  cfg_id := Some "mssql-a"; cfg_project_id := Some 7;
  cfg_vpc_id := Some "vpc-26w7r56z"; cfg_subnet_id := Some "subnet-lvlr6eeu";
  cfg_result_output_file := Some "out.json";
  rd_Id := ""; rd_instance_list := None
|}.

(** [project_id = 0], the default project. *)
Definition default_project : ResourceData := {|
  cfg_id := None; cfg_project_id := Some 0; cfg_vpc_id := None;
  cfg_subnet_id := None; cfg_result_output_file := None;
  rd_Id := ""; rd_instance_list := None
|}.

(** The same instance IDs as [healthy], with other pay modes and tags. *)
Definition healthy_too : World := {|
  listing := ([instance "mssql-a" 1; instance "mssql-b" 1], None);
  tags_of := fun _ => (∅, None);
  set_result := None; write_result := None; files := []
|}.

Definition other_client : TencentCloudClient := {| Region := "ap-shanghai" |}.

Definition play (d : ResourceData) (w : World) : result unit * St World :=
  run hash "PREPAID" "POSTPAID_BY_HOUR" services client d w.

(** The [instance_list] an invocation leaves in the resource data. *)
Definition instance_list_after (d : ResourceData) (w : World)
  : list (gmap string value) :=
  default [] (rd_instance_list (rdata (play d w).2)).

Definition failed_tag_call : event :=
  CallDescribeResourceTags "sqlserver" "instance" "ap-guangzhou" "mssql-b"
    (∅, Some "tags failed").

End Scripted.


(** ** The schema

    [schema.Resource] and [schema.Schema] of the plugin SDK, with the fields
    the data source fills in; every other field has Go's zero value.  [H] is
    the type of a read handler. *)

Inductive ValueType :=
| TypeInvalid | TypeBool | TypeInt | TypeFloat | TypeString | TypeList
| TypeMap | TypeSet.

Inductive schema_Schema (H : Type) := {
  Type_ : ValueType;
  Optional : bool;
  Computed : bool;
  Description : string;
  Elem : option (schema_Resource H)
}
with schema_Resource (H : Type) := {
  Read : option H;
  Schema : gmap string (schema_Schema H)
}.

Arguments Type_ {H}.
Arguments Optional {H}.
Arguments Computed {H}.
Arguments Description {H}.
Arguments Elem {H}.
Arguments Read {H}.
Arguments Schema {H}.

(** An argument of the data source: [Optional: true]. *)
Definition optional_field {H : Type} (t : ValueType) (description : string)
  : schema_Schema H :=
  {| Type_ := t; Optional := true; Computed := false;
     Description := description; Elem := None |}.

(** An attribute the data source computes: [Computed: true]. *)
Definition computed_field {H : Type} (t : ValueType) (description : string)
  : schema_Schema H :=
  {| Type_ := t; Optional := false; Computed := true;
     Description := description; Elem := None |}.

Section DataSource.
Context {World : Type}.
Variable DataResourceIdsHash : list string -> string.
Variable COMMON_PAYTYPE_PREPAID : string.
Variable COMMON_PAYTYPE_POSTPAID : string.
Variable svc : Services World.

(** The element resource of [instance_list]. *)
Definition instance_list_Elem
  : schema_Resource (TencentCloudClient -> M World unit) :=
  {| Read := None;
     Schema := list_to_map [
       ("id", computed_field TypeString
          "ID of the SQL Server basic instance.");
       ("name", computed_field TypeString
          "Name of the SQL Server basic instance.");
       ("charge_type", computed_field TypeString
          "Pay type of the SQL Server basic instance. For now, only `POSTPAID_BY_HOUR` is valid.");
       ("engine_version", computed_field TypeString
          "Version of the SQL Server basic database engine. Allowed values are `2008R2`(SQL Server 2008 Enerprise), `2012SP3`(SQL Server 2012 Enterprise), `2016SP1` (SQL Server 2016 Enterprise), `201602`(SQL Server 2016 Standard) and `2017`(SQL Server 2017 Enterprise). Default is `2008R2`.");
       ("vpc_id", computed_field TypeString "ID of VPC.");
       ("subnet_id", computed_field TypeString "ID of subnet.");
       ("storage", computed_field TypeInt
          "Disk size (in GB). Allowed value must be a multiple of 10. The storage must be set with the limit of `storage_min` and `storage_max` which data source `tencentcloud_sqlserver_specinfos` provides.");
       ("memory", computed_field TypeInt
          "Memory size (in GB). Allowed value must be larger than `memory` that data source `tencentcloud_sqlserver_specinfos` provides.");
       ("cpu", computed_field TypeInt
          "The CPU number of the SQL Server basic instance.");
       ("project_id", computed_field TypeInt
          "Project ID, default value is 0.");
       ("availability_zone", computed_field TypeString "Availability zone.");
       ("used_storage", computed_field TypeInt "Used storage.");
       ("vip", computed_field TypeString "IP for private access.");
       ("vport", computed_field TypeInt "Port for private access.");
       ("create_time", computed_field TypeString
          "Create time of the SQL Server basic instance.");
       ("status", computed_field TypeInt
          "Status of the SQL Server basic instance. 1 for applying, 2 for running, 3 for running with limit, 4 for isolated, 5 for recycling, 6 for recycled, 7 for running with task, 8 for off-line, 9 for expanding, 10 for migrating, 11 for readonly, 12 for rebooting.");
       ("tags", computed_field TypeMap
          "Tags of the SQL Server basic instance.")
     ] |}.

Definition dataSourceTencentCloudSqlserverBasicInstances
  : schema_Resource (TencentCloudClient -> M World unit) :=
  {| Read :=
       Some (dataSourceTencentCloudSqlserverBasicInstanceRead
               DataResourceIdsHash COMMON_PAYTYPE_PREPAID
               COMMON_PAYTYPE_POSTPAID svc);
     Schema := list_to_map [
       ("id", optional_field TypeString
          "ID of the SQL Server basic instance to be query.");
       ("project_id", optional_field TypeInt
          "Project ID of the SQL Server basic instance to be query.");
       ("vpc_id", optional_field TypeString
          "Vpc ID of the SQL Server basic instance to be query.");
       ("subnet_id", optional_field TypeString
          "Subnet ID of the SQL Server basic instance to be query.");
       ("result_output_file", optional_field TypeString
          "Used to save results.");
       ("instance_list",
        {| Type_ := TypeList; Optional := false; Computed := true;
           Description :=
             "A list of SQL Server basic instances. Each element contains the following attributes.";
           Elem := Some instance_list_Elem |})
     ] |}.

End DataSource.

(** ** More vocabulary *)

(** The resource ID of a tag call. *)
Definition tag_resource_id (e : event) : option string :=
  match e with
  | CallDescribeResourceTags _ _ _ resourceId _ => Some resourceId
  | _ => None
  end.

Definition is_set_id (e : event) : bool :=
  match e with CallSetId _ => true | _ => false end.

(** Event [ev], made in world [w], is answered as recorded and leaves world
    [w']. *)
Definition answers {World : Type} (svc : Services World) (ev : event)
    (w w' : World) : Prop :=
  match ev with
  | CallDescribeSqlserverInstances i p v s t res =>
      DescribeSqlserverInstances svc i p v s t w = (res, w')
  | CallDescribeResourceTags a b c r res =>
      DescribeResourceTags svc a b c r w = (res, w')
  | CallSetId _ => w' = w
  | CallSet k v res => ResourceData_Set svc k v w = (res, w')
  | CallWriteToFile path v res => writeToFile svc path v w = (res, w')
  end.

(** The calls of [tr], made one after the other from world [w], are answered
    as recorded and leave world [w']. *)
Fixpoint replays {World : Type} (svc : Services World) (tr : list event)
    (w w' : World) : Prop :=
  match tr with
  | [] => w' = w
  | ev :: tr' => ∃ w1, answers svc ev w w1 ∧ replays svc tr' w1 w'
  end.

(** A computation that keeps the trace a log of the world: when the calls
    made so far replay from [w0] to the current world, so do the calls made
    after it. *)
Definition keeps_log {World A : Type} (svc : Services World) (m : M World A)
  : Prop :=
  ∀ (st : St World) (w0 : World),
    replays svc (trace st) w0 (world st) →
    replays svc (trace (m st).2) w0 (world (m st).2).

(** Two resource data with the same arguments. *)
Definition same_arguments (d d' : ResourceData) : Prop :=
  cfg_id d = cfg_id d' ∧ cfg_project_id d = cfg_project_id d' ∧
  cfg_vpc_id d = cfg_vpc_id d' ∧ cfg_subnet_id d = cfg_subnet_id d' ∧
  cfg_result_output_file d = cfg_result_output_file d'.

(** ** A reliable world

    Services that never fail, over a world that counts the calls made. *)
Module Reliable.

Definition services : Services nat := {|
  DescribeSqlserverInstances := fun _ _ _ _ _ n =>
    ((Scripted.two_instances, None), S n);
  DescribeResourceTags := fun _ _ _ resourceId n =>
    (({["owner" := resourceId]}, None), S n);
  ResourceData_Set := fun _ _ n => (None, S n);
  writeToFile := fun _ _ n => (None, S n)
|}.

Definition play (d : ResourceData) (n : nat) : result unit * St nat :=
  run Scripted.hash "PREPAID" "POSTPAID_BY_HOUR" services Scripted.client d n.

End Reliable.

(** ** More scripted worlds *)
Module Scenarios.

(** [d.Set] rejects the list. *)
Definition set_rejected : Scripted.World := {|
  Scripted.listing := (Scripted.two_instances, None);
  Scripted.tags_of := Scripted.test_tags;
  Scripted.set_result := Some "set failed";
  Scripted.write_result := None; Scripted.files := []
|}.

(** The file writer fails. *)
Definition disk_full : Scripted.World := {|
  Scripted.listing := (Scripted.two_instances, None);
  Scripted.tags_of := Scripted.test_tags;
  Scripted.set_result := None;
  Scripted.write_result := Some "write failed"; Scripted.files := []
|}.

(** The listing service finds no instance. *)
Definition no_instances : Scripted.World := {|
  Scripted.listing := ([], None);
  Scripted.tags_of := Scripted.test_tags;
  Scripted.set_result := None;
  Scripted.write_result := None; Scripted.files := []
|}.

(** The arguments of [Scripted.all_arguments], with an ID and an
    [instance_list] left by an earlier read. *)
Definition refreshed : ResourceData := {|
  cfg_id := Some "mssql-a"; cfg_project_id := Some 7;
  cfg_vpc_id := Some "vpc-26w7r56z"; cfg_subnet_id := Some "subnet-lvlr6eeu";
  cfg_result_output_file := Some "out.json";
  rd_Id := "stale"; rd_instance_list := Some []
|}.

(** The output elements of the two instances in the healthy world. *)
Definition healthy_items : list (gmap string value) :=
  [item_of "PREPAID" "POSTPAID_BY_HOUR" (Scripted.instance "mssql-a" 0) 0
     {["test" := "test"]};
   item_of "PREPAID" "POSTPAID_BY_HOUR" (Scripted.instance "mssql-b" 1) 1
     {["test" := "test"]}].

(** The output elements of the two instances in the reliable world, where
    the tag service answers each instance with its own tag. *)
Definition owner_items : list (gmap string value) :=
  [item_of "PREPAID" "POSTPAID_BY_HOUR" (Scripted.instance "mssql-a" 0) 0
     {["owner" := "mssql-a"]};
   item_of "PREPAID" "POSTPAID_BY_HOUR" (Scripted.instance "mssql-b" 1) 1
     {["owner" := "mssql-b"]}].

Definition owner_tag_calls : list event :=
  [CallDescribeResourceTags "sqlserver" "instance" "ap-guangzhou" "mssql-a"
     ({["owner" := "mssql-a"]}, None);
   CallDescribeResourceTags "sqlserver" "instance" "ap-guangzhou" "mssql-b"
     ({["owner" := "mssql-b"]}, None)].

End Scenarios.

(** ** The loop *)

Section Properties.
Context {World : Type}.
Variable DataResourceIdsHash : list string -> string.
Variable COMMON_PAYTYPE_PREPAID : string.
Variable COMMON_PAYTYPE_POSTPAID : string.
Variable svc : Services World.
Variable meta : TencentCloudClient.

Local Abbreviation body :=
  (loop_body COMMON_PAYTYPE_PREPAID COMMON_PAYTYPE_POSTPAID svc meta).
Local Abbreviation loop :=
  (flatten_loop COMMON_PAYTYPE_PREPAID COMMON_PAYTYPE_POSTPAID svc meta).
Local Abbreviation iteration :=
  (iteration_of COMMON_PAYTYPE_PREPAID COMMON_PAYTYPE_POSTPAID (Region meta)).
Local Abbreviation handler_run :=
  (run DataResourceIdsHash COMMON_PAYTYPE_PREPAID COMMON_PAYTYPE_POSTPAID
     svc meta).

Ltac unfold_monad :=
  unfold mbind, M_bind, bind, mret, M_ret, ret, fail, deref,
    call_DescribeResourceTags, call_DescribeSqlserverInstances,
    call_SetId, call_Set_instance_list, call_writeToFile, return_error,
    get_d in *.

(** One iteration: it completes with one successful tag call, or stops at
    a failed tag call, or panics at a nil pointer before any call. *)
Lemma loop_body_spec (v : DBInstance) (st : St World) :
  match body v st with
  | (Ret (item, instanceId), st') =>
      ∃ ev, iteration v ev item ∧ InstanceId v = Some instanceId ∧
            rdata st' = rdata st ∧ trace st' = trace st ++ [ev]
  | (Err e, st') =>
      ∃ ev, failed_iteration_of (Region meta) v e ev ∧
            rdata st' = rdata st ∧ trace st' = trace st ++ [ev]
  | (Panic, st') =>
      ¬ no_nil_pointers v ∧ st' = st
  end.
Proof.
  unfold loop_body, no_nil_pointers. unfold_monad.
  destruct (PayMode v) as [p|] eqn:Hp;
    [|split; [intros [[? ?] _]; discriminate | reflexivity]].
  destruct (InstanceId v) as [rid|] eqn:Hid;
    [|split; [intros [_ [? ?]]; discriminate | reflexivity]].
  destruct (DescribeResourceTags svc _ _ _ _ (world st))
    as [[tags [e|]] w'] eqn:Hcall; simpl.
  - eexists. split; [|split; reflexivity].
    exists rid, tags. rewrite Hp, Hid. eauto.
  - eexists. split; [|repeat split; reflexivity].
    exists p, rid, tags. rewrite Hp, Hid. repeat split.
    unfold item_of. destruct (p =? 1); reflexivity.
Qed.

(** The whole loop.  It completes with one iteration per instance, in
    order; or it stops at the first failed tag call; or it panics at the
    first instance with a nil [PayMode] or [InstanceId].  In every case it
    leaves the resource data alone and makes tag calls only. *)
Lemma flatten_loop_spec (instanceList : list DBInstance) :
  ∀ (ids : list string) (lst : list (gmap string value)) (st : St World),
  match loop instanceList ids lst st with
  | (Ret (ids', lst'), st') =>
      ∃ evs items new_ids,
        Forall3 iteration instanceList evs items ∧
        InstanceId <$> instanceList = Some <$> new_ids ∧
        ids' = ids ++ new_ids ∧ lst' = lst ++ items ∧
        rdata st' = rdata st ∧ trace st' = trace st ++ evs
  | (Err e, st') =>
      ∃ l1 v l2 evs items ev,
        instanceList = l1 ++ v :: l2 ∧
        Forall3 iteration l1 evs items ∧
        failed_iteration_of (Region meta) v e ev ∧
        rdata st' = rdata st ∧ trace st' = trace st ++ evs ++ [ev]
  | (Panic, st') =>
      ∃ l1 v l2 evs items,
        instanceList = l1 ++ v :: l2 ∧
        Forall3 iteration l1 evs items ∧
        ¬ no_nil_pointers v ∧
        rdata st' = rdata st ∧ trace st' = trace st ++ evs
  end.
Proof.
  induction instanceList as [|v rest IH]; intros ids lst st;
    cbn [flatten_loop].
  - exists [], [], []. rewrite !app_nil_r. repeat split. constructor.
  - unfold mbind, M_bind, bind.
    pose proof (loop_body_spec v st) as Hb.
    destruct (body v st) as [[[item iid]|e|] st1].
    + destruct Hb as (ev & Hit & Hid & Hrd & Htr).
      specialize (IH (ids ++ [iid]) (lst ++ [item]) st1).
      destruct (loop rest (ids ++ [iid]) (lst ++ [item]) st1)
        as [[[ids' lst']|e|] st2].
      * destruct IH as (evs & items & new_ids & HF & Hids & -> & -> & Hrd2 & Htr2).
        exists (ev :: evs), (item :: items), (iid :: new_ids).
        rewrite Hrd2, Htr2, Htr, <- !app_assoc, !fmap_cons, Hid, Hids.
        repeat split; try done. by constructor.
      * destruct IH as (l1 & v' & l2 & evs & items & ev' & -> & HF & Hfail & Hrd2 & Htr2).
        exists (v :: l1), v', l2, (ev :: evs), (item :: items), ev'.
        rewrite Hrd2, Htr2, Htr, <- !app_assoc.
        repeat split; try done. by constructor.
      * destruct IH as (l1 & v' & l2 & evs & items & -> & HF & Hnil & Hrd2 & Htr2).
        exists (v :: l1), v', l2, (ev :: evs), (item :: items).
        rewrite Hrd2, Htr2, Htr, <- !app_assoc.
        repeat split; try done. by constructor.
    + destruct Hb as (ev & Hfail & Hrd & Htr).
      exists [], v, rest, [], [], ev. repeat split; try done. constructor.
    + destruct Hb as [Hnil ->].
      exists [], v, rest, [], []. rewrite app_nil_r.
      repeat split; try done. constructor.
Qed.

(** ** The handler *)

Lemma GetOk_project_id (o : option Z) :
  match GetOk_int o with (v, true) => v | (_, false) => -1 end =
  match o with Some z => if z =? 0 then -1 else z | None => -1 end.
Proof. destruct o as [z|]; simpl; [destruct (z =? 0)|]; reflexivity. Qed.

Lemma GetOk_string_filter (o : option string) :
  match GetOk_string o with (v, true) => v | (_, false) => "" end =
  default "" o.
Proof.
  destruct o as [s|]; simpl; [|reflexivity].
  destruct (String.eqb s "") eqn:E; simpl; [|reflexivity].
  apply String.eqb_eq in E. by subst.
Qed.

Lemma GetOk_output_file (o : option string) :
  (let '(output, ok) := GetOk_string o in
   if ok && negb (String.eqb output "") then Some output else None) =
  match o with
  | Some p => if String.eqb p "" then None else Some p
  | None => None
  end.
Proof. destruct o as [s|]; simpl; [destruct (String.eqb s "")|]; reflexivity. Qed.

(** Every invocation goes one of the six ways of [outcome_of]. *)
Lemma run_outcome (d : ResourceData) (w : World) :
  outcome_of DataResourceIdsHash COMMON_PAYTYPE_PREPAID
    COMMON_PAYTYPE_POSTPAID meta d
    (handler_run d w).1 (rdata (handler_run d w).2)
    (trace (handler_run d w).2).
Proof.
  unfold run, dataSourceTencentCloudSqlserverBasicInstanceRead.
  unfold mbind, M_bind, bind, get_d, call_DescribeSqlserverInstances,
    Get_string.
  cbn [world rdata trace].
  rewrite GetOk_project_id, !GetOk_string_filter.
  fold (project_filter d).
  destruct (DescribeSqlserverInstances svc _ _ _ _ _ w)
    as [[l [e|]] w1]; cbn [app].
  { apply listing_failed. }
  match goal with |- context [loop l [] [] ?st] =>
    pose proof (flatten_loop_spec l [] [] st) as Hloop;
    destruct (loop l [] [] st) as [[[ids lst]|e|] st2]
  end; cbn [rdata trace app] in Hloop.
  - destruct Hloop as (evs & items & new_ids & HF & Hids & -> & -> & Hrd & Htr).
    unfold call_SetId, call_Set_instance_list, call_writeToFile,
      return_error, fail, mret, M_ret, ret.
    cbn [world rdata trace app]. rewrite Hrd, Htr.
    destruct (ResourceData_Set svc _ _ (world st2)) as [[e|] w3].
    { cbn [fst snd rdata trace]. rewrite <- !app_assoc. cbn [app].
      by apply set_failed. }
    pose proof (GetOk_output_file (cfg_result_output_file d)) as Hout.
    fold (output_file d) in Hout.
    destruct (GetOk_string (cfg_result_output_file d)) as [output ok].
    destruct (ok && negb (String.eqb output "")).
    + cbn [world rdata trace].
      destruct (writeToFile svc output items w3) as [res w4].
      destruct res as [e|]; cbn [fst snd rdata trace];
        rewrite <- !app_assoc; cbn [app].
      * by apply (output_file_written _ _ _ _ _ _ _ _ _ _ (Some e)).
      * by apply (output_file_written _ _ _ _ _ _ _ _ _ _ None).
    + cbn [fst snd rdata trace]. rewrite <- !app_assoc. cbn [app].
      by apply no_output_file.
  - destruct Hloop as (l1 & v & l2 & evs & items & ev & -> & HF & Hfail & Hrd & Htr).
    cbn [fst snd]. rewrite Hrd, Htr. by eapply tag_call_failed.
  - destruct Hloop as (l1 & v & l2 & evs & items & -> & HF & Hnil & Hrd & Htr).
    cbn [fst snd]. rewrite Hrd, Htr. by eapply loop_panicked.
Qed.

(** ** Reading a trace *)

Lemma iterations_good_tag_calls (l : list DBInstance) (evs : list event)
    (items : list (gmap string value)) (ev : event) :
  Forall3 iteration l evs items → In ev evs → is_good_tag_call ev = true.
Proof.
  induction 1 as [|v ev' item l evs items Hv _ IH]; intros Hin;
    [destruct Hin|].
  destruct Hin as [<-|Hin]; [|by apply IH].
  by destruct Hv as (p & rid & tags & _ & _ & -> & _).
Qed.

Lemma iterations_filter (f : event → bool) (l : list DBInstance)
    (evs : list event) (items : list (gmap string value)) :
  (∀ ev, is_good_tag_call ev = true → f ev = false) →
  Forall3 iteration l evs items → List.filter f evs = [].
Proof.
  intros Hf HF. induction evs as [|ev evs IH] in l, items, HF |- *;
    [reflexivity|].
  inversion HF as [|v ? item l' ? items' Hv HF']; subst. simpl.
  rewrite Hf; [by eapply IH|].
  eapply iterations_good_tag_calls; [exact HF | by left].
Qed.

Lemma iterations_tag_calls (l : list DBInstance) (evs : list event)
    (items : list (gmap string value)) :
  Forall3 iteration l evs items → List.filter is_tag_call evs = evs.
Proof.
  induction 1 as [|v ev item l evs items Hv _ IH]; [reflexivity|].
  destruct Hv as (p & rid & tags & _ & _ & -> & _). simpl. by rewrite IH.
Qed.

Lemma good_tag_call_not_listing (ev : event) :
  is_good_tag_call ev = true → is_listing ev = false.
Proof. by destruct ev. Qed.

Lemma good_tag_call_not_update (ev : event) :
  is_good_tag_call ev = true → is_update ev = false.
Proof. by destruct ev. Qed.

Lemma good_tag_call_not_file_write (ev : event) :
  is_good_tag_call ev = true → is_file_write ev = false.
Proof. by destruct ev. Qed.

Lemma good_tag_call_no_error (ev : event) :
  is_good_tag_call ev = true → service_error ev = None.
Proof. by destruct ev as [| ? ? ? ? [? [?|]] | | |]. Qed.

Lemma failed_iteration_tag_call (v : DBInstance) (e : error) (ev : event) :
  failed_iteration_of (Region meta) v e ev →
  is_tag_call ev = true ∧ is_listing ev = false ∧ is_update ev = false ∧
  is_file_write ev = false ∧ service_error ev = Some e ∧
  tag_error ev = Some e.
Proof. by intros (rid & tags & _ & _ & ->). Qed.

(** The invocation [handler_run d w], taken apart: its result [r], the
    resource data [rd] and the trace [tr] it ends with, and the way it
    went. *)
Ltac outcome_cases d w :=
  let Hrun := fresh "Hrun" in
  pose proof (run_outcome d w) as Hrun;
  destruct (handler_run d w) as [r [w' rd tr]];
  cbn [fst snd world rdata trace] in *;
  inversion Hrun; subst; clear Hrun.

(** A membership in a trace, split over the pieces of the trace; the cases
    where a call other than a successful tag call sits among the
    iterations are closed. *)
Ltac split_in H :=
  cbn [In] in H; rewrite ?in_app_iff in H; cbn [In] in H;
  repeat match type of H with
         | _ ∨ _ => destruct H as [H|H]
         | False => destruct H
         end;
  try discriminate H;
  try match goal with
      | HF : Forall3 _ _ ?evs _ |- _ =>
          match type of H with
          | In _ evs =>
              apply (iterations_good_tag_calls _ _ _ _ HF) in H;
              cbn in H; discriminate H
          end
      end.

(** The calls to the listing service in a trace are exactly one, with the
    filters of the configuration and instance type 1. *)
Lemma run_listing_calls (d : ResourceData) (w : World) :
  ∃ res, List.filter is_listing (trace (handler_run d w).2) =
         [listing_call d res].
Proof.
  outcome_cases d w; eexists; cbn [List.filter is_listing listing_call];
    rewrite ?List.filter_app;
    try (erewrite (iterations_filter is_listing);
         [|apply good_tag_call_not_listing|eassumption]);
    try reflexivity.
  apply failed_iteration_tag_call in H0 as (_ & Hl & _).
  cbn [List.filter]. rewrite Hl. reflexivity.
Qed.

Lemma run_listing_call (d : ResourceData) (w : World) (instanceId : string)
    (projectId : Z) (vpcId subnetId : string) (netType : Z)
    (res : list DBInstance * option error) :
  In (CallDescribeSqlserverInstances instanceId projectId vpcId subnetId
        netType res) (trace (handler_run d w).2) →
  List.filter is_listing (trace (handler_run d w).2) = [listing_call d res] ∧
  CallDescribeSqlserverInstances instanceId projectId vpcId subnetId
    netType res = listing_call d res.
Proof.
  intros Hin. destruct (run_listing_calls d w) as [res' Hres].
  assert (Hev : In (CallDescribeSqlserverInstances instanceId projectId
                      vpcId subnetId netType res)
                   [listing_call d res']).
  { rewrite <- Hres. apply List.filter_In. by split. }
  destruct Hev as [Hev|[]]. unfold listing_call in Hev.
  injection Hev as <- <- <- <- <- <-. by rewrite Hres.
Qed.

(** ** The listing call *)


(** A service call that returned an error ends the invocation: the
    handler returns the error, the resource data is what it was and no
    call of the trace sets the ID, sets an attribute or writes a file. *)
Lemma run_service_error (d : ResourceData) (w : World)
    (ev : event) (e : error) :
  In ev (trace (handler_run d w).2) → service_error ev = Some e →
  (handler_run d w).1 = Err e ∧
  rdata (handler_run d w).2 = d ∧
  List.filter is_update (trace (handler_run d w).2) = [].
Proof.
  outcome_cases d w; intros Hin Herr; split_in Hin; subst;
    try (cbn in Herr; discriminate Herr);
    try (match goal with
         | HF : Forall3 _ _ ?evs _, H : In _ ?evs |- _ =>
             apply (iterations_good_tag_calls _ _ _ _ HF) in H;
             apply good_tag_call_no_error in H; congruence
         end).
  - cbn in Herr. injection Herr as ->. done.
  - match goal with H : failed_iteration_of _ _ _ _ |- _ =>
      apply failed_iteration_tag_call in H as (_ & _ & Hu & _ & He & _) end.
    rewrite He in Herr. injection Herr as ->.
    repeat split. cbn [List.filter is_update listing_call].
    rewrite List.filter_app.
    erewrite (iterations_filter is_update);
      [|apply good_tag_call_not_update|eassumption].
    cbn [List.filter app]. by rewrite Hu.
Qed.

(** C8: whenever the listing call or a tag call of an invocation returns
    an error, the handler returns that error and the Terraform state is
    as it was: the resource data is unchanged (no resource ID set,
    [instance_list] not set) and the invocation made no call that sets
    the ID, sets an attribute or writes a file. *)
Theorem error_leaves_state_unchanged (d : ResourceData) (w : World)
    (ev : event) (e : error) :
  In ev (trace (handler_run d w).2) → service_error ev = Some e →
  (handler_run d w).1 = Err e ∧
  rdata (handler_run d w).2 = d ∧
  List.filter is_update (trace (handler_run d w).2) = [].
Proof. apply run_service_error. Qed.

(** ** The flattened list *)

Lemma iteration_copies_fields (v : DBInstance) (ev : event)
    (item : gmap string value) :
  iteration v ev item → copies_fields v item.
Proof.
  intros (p & rid & tags & _ & _ & _ & ->).
  unfold copies_fields, item_of, copied_fields. repeat split; reflexivity.
Qed.

Lemma iteration_tag_call (v : DBInstance) (ev : event)
    (item : gmap string value) :
  iteration v ev item → tag_call_of (Region meta) v ev item.
Proof.
  intros (p & rid & tags & _ & Hid & -> & ->).
  exists rid, tags. split; [done|split; reflexivity].
Qed.

Lemma iteration_charge_type (v : DBInstance) (ev : event)
    (item : gmap string value) :
  iteration v ev item →
  charge_type_of COMMON_PAYTYPE_PREPAID COMMON_PAYTYPE_POSTPAID v item.
Proof.
  intros (p & rid & tags & Hp & _ & _ & ->).
  exists p. split; [done|]. unfold item_of. split.
  - intros ->. reflexivity.
  - intros Hne. apply Z.eqb_neq in Hne as ->. reflexivity.
Qed.

Lemma Forall3_Forall2_lr {A B C : Type} (P : A → B → C → Prop)
    (Q : A → C → Prop) (l : list A) (k : list B) (k' : list C) :
  (∀ x y z, P x y z → Q x z) → Forall3 P l k k' → Forall2 Q l k'.
Proof. intros HPQ. induction 1; constructor; eauto. Qed.

Lemma good_tag_call_no_output (ev : event) :
  is_good_tag_call ev = true → output_of ev = None.
Proof. by destruct ev. Qed.

Lemma listing_call_first (d : ResourceData)
    (res res' : list DBInstance * option error) (tr : list event) :
  List.filter is_listing (listing_call d res :: tr) = [listing_call d res'] →
  res = res'.
Proof. cbn. intros H. by injection H. Qed.

(** A result set handed to [d.Set] or to [writeToFile] is the list of a
    loop that completed: one iteration per listed instance, in order, and
    the tag calls of the invocation are the tag calls of these
    iterations. *)
Lemma run_output (d : ResourceData) (w : World) (instanceId : string)
    (projectId : Z) (vpcId subnetId : string) (netType : Z)
    (l : list DBInstance) (err : option error) (ev : event)
    (out : list (gmap string value)) :
  In (CallDescribeSqlserverInstances instanceId projectId vpcId subnetId
        netType (l, err)) (trace (handler_run d w).2) →
  In ev (trace (handler_run d w).2) → output_of ev = Some out →
  Forall3 iteration l (List.filter is_tag_call (trace (handler_run d w).2))
    out.
Proof.
  intros Hl. apply run_listing_call in Hl as [Hf _]. revert Hf.
  outcome_cases d w; intros Hf Hin Hout;
    apply listing_call_first in Hf; injection Hf as <- <-;
    cbn [List.filter is_tag_call listing_call];
    split_in Hin; subst;
    try (cbn in Hout; discriminate Hout);
    try (match goal with
         | HF : Forall3 _ _ ?evs _, H : In _ ?evs |- _ =>
             apply (iterations_good_tag_calls _ _ _ _ HF) in H;
             apply good_tag_call_no_output in H; congruence
         end);
    try (match goal with H : failed_iteration_of _ _ _ _ |- _ =>
           destruct H as (? & ? & _ & _ & ->); discriminate Hout end);
    cbn in Hout; injection Hout as <-;
    rewrite List.filter_app; cbn [List.filter is_tag_call];
    rewrite app_nil_r; erewrite iterations_tag_calls; eassumption.
Qed.

(** A successful invocation has set [instance_list], and the ID, from a
    loop that completed. *)
Lemma run_success (d : ResourceData) (w : World) :
  (handler_run d w).1 = Ret tt →
  ∃ out ids,
    rd_instance_list (rdata (handler_run d w).2) = Some out ∧
    rd_Id (rdata (handler_run d w).2) = DataResourceIdsHash ids ∧
    In (CallSet "instance_list" out None) (trace (handler_run d w).2) ∧
    In (CallSetId (DataResourceIdsHash ids)) (trace (handler_run d w).2).
Proof.
  outcome_cases d w; intros Hr; try discriminate Hr;
    exists items, ids; cbn [rd_instance_list rd_Id Set_instance_list SetId];
    repeat split; cbn [In]; rewrite in_app_iff; cbn [In]; auto 10.
Qed.

(** C1: for every list of instances the listing service returns, every
    result set the handler hands over (to [d.Set] for [instance_list], or
    to the file writer) has one element per instance, in the same order,
    and the element's fields [id], [name], [project_id], [storage],
    [memory], [availability_zone], [create_time], [vpc_id], [subnet_id],
    [engine_version], [vip], [vport], [used_storage], [status] and [cpu]
    are the instance's [InstanceId], [Name], [ProjectId], [Storage],
    [Memory], [Zone], [CreateTime], [UniqVpcId], [UniqSubnetId],
    [Version], [Vip], [Vport], [UsedStorage], [Status] and [Cpu]; and an
    invocation that returns nil has stored such a list as
    [instance_list]. *)
Theorem flattened_list_copies_fields (d : ResourceData) (w : World)
    (instanceId : string) (projectId : Z) (vpcId subnetId : string)
    (netType : Z) (l : list DBInstance) (err : option error) :
  In (CallDescribeSqlserverInstances instanceId projectId vpcId subnetId
        netType (l, err)) (trace (handler_run d w).2) →
  (∀ ev out,
     In ev (trace (handler_run d w).2) → output_of ev = Some out →
     Forall2 copies_fields l out) ∧
  ((handler_run d w).1 = Ret tt →
   ∃ out, rd_instance_list (rdata (handler_run d w).2) = Some out ∧
          Forall2 copies_fields l out).
Proof.
  intros Hl.
  assert (Hall : ∀ ev out,
    In ev (trace (handler_run d w).2) → output_of ev = Some out →
    Forall2 copies_fields l out).
  { intros ev out Hin Hout.
    eapply Forall3_Forall2_lr;
      [apply iteration_copies_fields | by eapply run_output]. }
  split; [exact Hall|]. intros Hr.
  destruct (run_success d w Hr) as (out & ids & Hrd & _ & Hset & _).
  exists out. split; [done|]. by eapply Hall.
Qed.

(** C9: for every listed instance, the [charge_type] field of its output
    element is [COMMON_PAYTYPE_PREPAID] when the instance's [PayMode] is
    1 and [COMMON_PAYTYPE_POSTPAID] in every other case. *)
Theorem charge_type_from_pay_mode (d : ResourceData) (w : World)
    (instanceId : string) (projectId : Z) (vpcId subnetId : string)
    (netType : Z) (l : list DBInstance) (err : option error) :
  In (CallDescribeSqlserverInstances instanceId projectId vpcId subnetId
        netType (l, err)) (trace (handler_run d w).2) →
  (∀ ev out,
     In ev (trace (handler_run d w).2) → output_of ev = Some out →
     Forall2 (charge_type_of COMMON_PAYTYPE_PREPAID COMMON_PAYTYPE_POSTPAID)
       l out) ∧
  ((handler_run d w).1 = Ret tt →
   ∃ out, rd_instance_list (rdata (handler_run d w).2) = Some out ∧
          Forall2
            (charge_type_of COMMON_PAYTYPE_PREPAID COMMON_PAYTYPE_POSTPAID)
            l out).
Proof.
  intros Hl.
  assert (Hall : ∀ ev out,
    In ev (trace (handler_run d w).2) → output_of ev = Some out →
    Forall2 (charge_type_of COMMON_PAYTYPE_PREPAID COMMON_PAYTYPE_POSTPAID)
      l out).
  { intros ev out Hin Hout.
    eapply Forall3_Forall2_lr;
      [apply iteration_charge_type | by eapply run_output]. }
  split; [exact Hall|]. intros Hr.
  destruct (run_success d w Hr) as (out & ids & Hrd & _ & Hset & _).
  exists out. split; [done|]. by eapply Hall.
Qed.

(** ** Tag calls *)

Lemma tag_error_service_error (ev : event) (e : error) :
  tag_error ev = Some e → service_error ev = Some e.
Proof. by destruct ev. Qed.

(** ** Nil pointers *)

Lemma iteration_no_nil_pointers (v : DBInstance) (ev : event)
    (item : gmap string value) :
  iteration v ev item → no_nil_pointers v.
Proof. intros (p & rid & tags & Hp & Hid & _). split; eauto. Qed.

Lemma failed_iteration_no_nil_pointers (v : DBInstance) (e : error)
    (ev : event) :
  failed_iteration_of (Region meta) v e ev → no_nil_pointers v.
Proof. intros (rid & tags & Hp & Hid & _). split; eauto. Qed.

(** C10: the handler dereferences [PayMode] and [InstanceId] of a listed
    instance without a nil check, so a listing whose first instance has one
    of them nil makes it panic; and when every instance the listing
    service returns has both of them non-nil, the handler does not
    panic. *)
Theorem no_nil_dereference (d : ResourceData) (w : World)
    (instanceId : string) (projectId : Z) (vpcId subnetId : string)
    (netType : Z) (l : list DBInstance) (err : option error) :
  In (CallDescribeSqlserverInstances instanceId projectId vpcId subnetId
        netType (l, err)) (trace (handler_run d w).2) →
  (Forall no_nil_pointers l → (handler_run d w).1 ≠ Panic) ∧
  (∀ v rest,
     l = v :: rest → err = None → ¬ no_nil_pointers v →
     (handler_run d w).1 = Panic).
Proof.
  intros Hl. apply run_listing_call in Hl as [Hf _]. revert Hf.
  outcome_cases d w; intros Hf; apply listing_call_first in Hf;
    injection Hf as <- <-; (split; try done).
  - intros Hall _.
    apply Forall_app in Hall as [_ Hall].
    by apply Forall_cons in Hall as [Hv _].
  - intros v' rest Heq _ Hnil. exfalso. apply Hnil.
    destruct l1 as [|v1 l1]; injection Heq as -> <-.
    + by eapply failed_iteration_no_nil_pointers.
    + match goal with HF : Forall3 _ (_ :: _) _ _ |- _ =>
        inversion HF; subst end.
      by eapply iteration_no_nil_pointers.
  - intros v' rest -> _ Hnil. exfalso. apply Hnil.
    match goal with HF : Forall3 _ (_ :: _) _ _ |- _ =>
      inversion HF; subst end.
    by eapply iteration_no_nil_pointers.
  - intros v' rest -> _ Hnil. exfalso. apply Hnil.
    match goal with HF : Forall3 _ (_ :: _) _ _ |- _ =>
      inversion HF; subst end.
    by eapply iteration_no_nil_pointers.
  - by destruct res.
  - intros v' rest -> _ Hnil. exfalso. apply Hnil.
    match goal with HF : Forall3 _ (_ :: _) _ _ |- _ =>
      inversion HF; subst end.
    by eapply iteration_no_nil_pointers.
Qed.

(** ** The output file *)

Lemma output_file_Some (d : ResourceData) (path : string) :
  output_file d = Some path ↔
  cfg_result_output_file d = Some path ∧ path ≠ "".
Proof.
  unfold output_file. destruct (cfg_result_output_file d) as [p|].
  - destruct (String.eqb_spec p "") as [->|Hne]; split.
    + discriminate.
    + intros [[= <-] Hne]. done.
    + intros [= <-]. done.
    + intros [[= <-] _]. done.
  - split; [discriminate|]. intros [? _]. discriminate.
Qed.

Lemma output_file_None (d : ResourceData) :
  (¬ ∃ path, cfg_result_output_file d = Some path ∧ path ≠ "") →
  output_file d = None.
Proof.
  intros Hno. destruct (output_file d) as [path|] eqn:Hout; [|done].
  apply output_file_Some in Hout. destruct Hno. eauto.
Qed.

Ltac not_a_tag_call H :=
  match goal with
  | HF : failed_iteration_of _ _ _ _ |- _ =>
      destruct HF as (? & ? & _ & _ & HF); rewrite HF in H; discriminate H
  end.

Ltac file_writes :=
  cbn [List.filter is_file_write listing_call];
  rewrite ?List.filter_app;
  try (erewrite (iterations_filter is_file_write);
       [|apply good_tag_call_not_file_write|eassumption]);
  cbn [List.filter is_file_write app].

(** A file write of an invocation. *)
Lemma run_file_write (d : ResourceData) (w : World) (path : string)
    (out : list (gmap string value)) (res : option error) :
  In (CallWriteToFile path out res) (trace (handler_run d w).2) →
  cfg_result_output_file d = Some path ∧ path ≠ "" ∧
  In (CallSet "instance_list" out None) (trace (handler_run d w).2) ∧
  List.filter is_file_write (trace (handler_run d w).2) =
  [CallWriteToFile path out res] ∧
  (handler_run d w).1 = match res with Some e => Err e | None => Ret tt end.
Proof.
  outcome_cases d w; intros Hin; split_in Hin; try not_a_tag_call Hin.
  injection Hin as <- <- <-.
  match goal with H : output_file d = Some _ |- _ =>
    apply output_file_Some in H as [Hcfg Hne] end.
  repeat split; try done.
  - cbn [In]. rewrite in_app_iff. cbn [In]. auto 10.
  - by file_writes.
Qed.

(** An invocation that has set [instance_list] writes the configured
    file. *)
Lemma run_file_written (d : ResourceData) (w : World) (path : string)
    (out : list (gmap string value)) :
  In (CallSet "instance_list" out None) (trace (handler_run d w).2) →
  cfg_result_output_file d = Some path → path ≠ "" →
  ∃ res, In (CallWriteToFile path out res) (trace (handler_run d w).2).
Proof.
  intros Hin Hcfg Hne.
  assert (output_file d = Some path) as Hout by (by apply output_file_Some).
  revert Hin.
  outcome_cases d w; intros Hin; split_in Hin; try not_a_tag_call Hin.
  - injection Hin as <-. congruence.
  - injection Hin as <-. exists res.
    assert (path0 = path) as -> by congruence.
    cbn [In]. rewrite in_app_iff. cbn [In]. auto 10.
Qed.

(** No file is written without a configured file, and the handler then
    returns nil once it has set [instance_list]. *)
Lemma run_no_file (d : ResourceData) (w : World) :
  (¬ ∃ path, cfg_result_output_file d = Some path ∧ path ≠ "") →
  List.filter is_file_write (trace (handler_run d w).2) = [] ∧
  ∀ out,
    In (CallSet "instance_list" out None) (trace (handler_run d w).2) →
    (handler_run d w).1 = Ret tt.
Proof.
  intros Hno. apply output_file_None in Hno. revert Hno.
  outcome_cases d w; intros Hno; try congruence;
    (split; [|intros out Hin; split_in Hin; try not_a_tag_call Hin; done]);
    file_writes; try done.
  match goal with HF : failed_iteration_of _ _ _ _ |- _ =>
    apply failed_iteration_tag_call in HF as (_ & _ & _ & -> & _) end.
  done.
Qed.

(** ** The resource ID *)

(** An ID the handler sets is the hash of the instance IDs of the listing
    result, in order. *)
Lemma run_set_id (d : ResourceData) (w : World) (instanceId : string)
    (projectId : Z) (vpcId subnetId : string) (netType : Z)
    (l : list DBInstance) (err : option error) (id : string) :
  In (CallDescribeSqlserverInstances instanceId projectId vpcId subnetId
        netType (l, err)) (trace (handler_run d w).2) →
  In (CallSetId id) (trace (handler_run d w).2) →
  ∃ ids, InstanceId <$> l = Some <$> ids ∧ id = DataResourceIdsHash ids.
Proof.
  intros Hl. apply run_listing_call in Hl as [Hf _]. revert Hf.
  outcome_cases d w; intros Hf Hin;
    apply listing_call_first in Hf; injection Hf as <- <-;
    split_in Hin; try not_a_tag_call Hin;
    injection Hin as <-; eauto.
Qed.

(** ** The flattened list and the schema *)

Lemma item_of_dom (v : DBInstance) (p : Z) (tags : gmap string string) :
  dom (item_of COMMON_PAYTYPE_PREPAID COMMON_PAYTYPE_POSTPAID v p tags) =
  dom (Schema (@instance_list_Elem World)).
Proof. reflexivity. Qed.

Lemma run_has_listing_call (d : ResourceData) (w : World) :
  ∃ res, In (listing_call d res) (trace (handler_run d w).2).
Proof.
  destruct (run_listing_calls d w) as [res Hres]. exists res.
  eapply (proj1 (List.filter_In is_listing _ _)). rewrite Hres. by left.
Qed.

(** The output elements and the schema agree on the attribute names: every
    element of a result set the handler hands to [d.Set] or to the file
    writer has exactly the keys that the element resource of
    [instance_list] declares in the schema of the data source, no key
    missing and none undeclared. *)
Theorem output_keys_are_schema_keys (d : ResourceData) (w : World)
    (ev : event) (out : list (gmap string value)) :
  In ev (trace (handler_run d w).2) → output_of ev = Some out →
  ∃ sch elem,
    Schema (dataSourceTencentCloudSqlserverBasicInstances
              DataResourceIdsHash COMMON_PAYTYPE_PREPAID
              COMMON_PAYTYPE_POSTPAID svc) !! "instance_list" = Some sch ∧
    Type_ sch = TypeList ∧ Elem sch = Some elem ∧
    Forall (λ item, dom item = dom (Schema elem)) out.
Proof.
  intros Hin Hout. do 2 eexists. split; [reflexivity|].
  split; [reflexivity|]. split; [reflexivity|].
  destruct (run_has_listing_call d w) as [[l err] Hl].
  pose proof (run_output d w _ _ _ _ _ l err ev out Hl Hin Hout) as HF.
  clear Hin Hout Hl. induction HF as [|v ev' item l' evs items Hit _ IH];
    constructor; [|exact IH].
  destruct Hit as (p & rid & tags & _ & _ & _ & ->). apply item_of_dom.
Qed.

(** ** Failures after the loop *)

(** When the file writer fails, the handler returns its error, but the
    Terraform state has been written all the same: the resource data hold
    the list that was to be written as [instance_list], and the ID. *)
Theorem write_failure_keeps_state (d : ResourceData) (w : World)
    (path : string) (out : list (gmap string value)) (e : error) :
  In (CallWriteToFile path out (Some e)) (trace (handler_run d w).2) →
  (handler_run d w).1 = Err e ∧
  rd_instance_list (rdata (handler_run d w).2) = Some out ∧
  ∃ ids,
    rd_Id (rdata (handler_run d w).2) = DataResourceIdsHash ids ∧
    In (CallSetId (DataResourceIdsHash ids)) (trace (handler_run d w).2).
Proof.
  outcome_cases d w; intros Hin; split_in Hin; try not_a_tag_call Hin.
  injection Hin as <- <- ->. split; [done|]. split; [done|].
  exists ids. split; [done|].
  cbn [In]. rewrite in_app_iff. cbn [In]. auto 10.
Qed.

(** A panic of the handler leaves the Terraform state as it was: the
    resource data are unchanged, no call of the invocation sets the ID, sets
    an attribute or writes a file, and no service call before the panic had
    returned an error. *)
Theorem panic_leaves_state_unchanged (d : ResourceData) (w : World) :
  (handler_run d w).1 = Panic →
  rdata (handler_run d w).2 = d ∧
  List.filter is_update (trace (handler_run d w).2) = [] ∧
  ∀ ev, In ev (trace (handler_run d w).2) → service_error ev = None.
Proof.
  outcome_cases d w; intros Hr; try discriminate Hr;
    [|by destruct res].
  split; [done|]. split.
  - cbn [List.filter is_update listing_call].
    erewrite (iterations_filter is_update);
      [done|apply good_tag_call_not_update|eassumption].
  - intros ev Hin. split_in Hin; [by subst|].
    apply good_tag_call_no_error. by eapply iterations_good_tag_calls.
Qed.

(** ** The empty listing *)

(** When the listing service returns no instance, the handler makes no tag
    call and does not panic; it sets the ID to the hash of the empty list
    and hands the empty list to [d.Set], and when it returns nil the
    resource data hold the empty [instance_list]. *)
Theorem empty_listing (d : ResourceData) (w : World) (instanceId : string)
    (projectId : Z) (vpcId subnetId : string) (netType : Z) :
  In (CallDescribeSqlserverInstances instanceId projectId vpcId subnetId
        netType ([], None)) (trace (handler_run d w).2) →
  List.filter is_tag_call (trace (handler_run d w).2) = [] ∧
  (handler_run d w).1 ≠ Panic ∧
  In (CallSetId (DataResourceIdsHash [])) (trace (handler_run d w).2) ∧
  (∃ r, In (CallSet "instance_list" [] r) (trace (handler_run d w).2)) ∧
  ((handler_run d w).1 = Ret tt →
   rd_instance_list (rdata (handler_run d w).2) = Some [] ∧
   rd_Id (rdata (handler_run d w).2) = DataResourceIdsHash []).
Proof.
  intros Hl. apply run_listing_call in Hl as [Hf _]. revert Hf.
  outcome_cases d w; intros Hf; apply listing_call_first in Hf;
    try discriminate Hf; injection Hf as Hl;
    try (by destruct l1);
    subst l;
    match goal with HF : Forall3 _ [] _ _ |- _ => inversion HF; subst end;
    match goal with H : _ <$> [] = Some <$> ?ids |- _ =>
      destruct ids; [clear H|discriminate H] end;
    cbn [app List.filter is_tag_call listing_call In rd_instance_list rd_Id
         Set_instance_list SetId];
    repeat split; eauto 10; try done; try (by destruct res).
Qed.

(** ** Tag calls in every invocation *)

Lemma iterations_resource_ids (l : list DBInstance) (evs : list event)
    (items : list (gmap string value)) :
  Forall3 iteration l evs items →
  Some <$> omap tag_resource_id evs = InstanceId <$> l.
Proof.
  induction 1 as [|v ev item l evs items Hv _ IH]; [reflexivity|].
  destruct Hv as (p & rid & tags & _ & Hid & -> & _).
  cbn [omap list_omap tag_resource_id]. rewrite !fmap_cons, Hid. by f_equal.
Qed.

Lemma iterations_no_resource_id (ev : event) :
  is_update ev = true → tag_resource_id ev = None.
Proof. by destruct ev. Qed.

(** Whether it completes or not, an invocation calls the tag service with
    service type "sqlserver", resource prefix "instance" and the client's
    region only; the resource IDs of its tag calls are, in order, the
    instance IDs of the first instances of the listing result (it never
    skips an instance and never goes back); and a tag call that fails is
    the last call of the invocation. *)
Theorem tag_calls_follow_listing (d : ResourceData) (w : World)
    (instanceId : string) (projectId : Z) (vpcId subnetId : string)
    (netType : Z) (l : list DBInstance) (err : option error) :
  In (CallDescribeSqlserverInstances instanceId projectId vpcId subnetId
        netType (l, err)) (trace (handler_run d w).2) →
  (∀ serviceType resourceType region resourceId res,
     In (CallDescribeResourceTags serviceType resourceType region resourceId
           res) (trace (handler_run d w).2) →
     serviceType = "sqlserver" ∧ resourceType = "instance" ∧
     region = Region meta) ∧
  (Some <$> omap tag_resource_id (trace (handler_run d w).2))
    `prefix_of` (InstanceId <$> l) ∧
  (∀ ev e,
     In ev (trace (handler_run d w).2) → tag_error ev = Some e →
     ∃ pre, trace (handler_run d w).2 = pre ++ [ev]).
Proof.
  intros Hl. apply run_listing_call in Hl as [Hf _]. revert Hf.
  assert (Hargs : ∀ l' evs items a b c r res,
    Forall3 iteration l' evs items →
    In (CallDescribeResourceTags a b c r res) evs →
    a = "sqlserver" ∧ b = "instance" ∧ c = Region meta).
  { intros l' evs items a b c r res HF.
    induction HF as [|v ev item l'' evs items Hv _ IH]; [intros []|].
    intros [Heq|Hin]; [subst ev|by apply IH].
    destruct Hv as (p & rid & tags & _ & _ & Hev & _).
    by injection Hev as -> -> -> _ _. }
  outcome_cases d w; intros Hf; apply listing_call_first in Hf;
    injection Hf as <- <-; (split; [|split]).
  all: try (intros a b c r res' Hin; split_in Hin; try (by eapply Hargs)).
  all: try (intros ev0 e0 Hin Herr; split_in Hin; subst;
            try (cbn in Herr; discriminate Herr);
            try (match goal with
                 | HF : Forall3 _ _ ?evs _, H : In _ ?evs |- _ =>
                     apply (iterations_good_tag_calls _ _ _ _ HF) in H;
                     apply good_tag_call_no_error in H;
                     apply tag_error_service_error in Herr; congruence
                 end)).
  all: cbn [omap list_omap tag_resource_id listing_call];
    rewrite ?omap_app; cbn [omap list_omap tag_resource_id];
    rewrite ?app_nil_r.
  - apply prefix_nil.
  - rewrite fmap_app. erewrite iterations_resource_ids by eassumption.
    by apply prefix_app_r.
  - match goal with H : failed_iteration_of _ _ _ _ |- _ =>
      destruct H as (rid & tags & _ & _ & ->) end.
    by injection Hin as <- <- <- _ _.
  - match goal with H : failed_iteration_of _ _ _ _ |- _ =>
      destruct H as (rid & tags & _ & Hid & ->) end.
    cbn [omap list_omap tag_resource_id].
    rewrite !fmap_app, fmap_cons.
    erewrite iterations_resource_ids by eassumption.
    rewrite <- Hid. apply prefix_app, prefix_cons, prefix_nil.
  - by eexists (_ :: evs).
  - by erewrite iterations_resource_ids by eassumption.
  - by erewrite iterations_resource_ids by eassumption.
  - by erewrite iterations_resource_ids by eassumption.
Qed.

(** ** The resource ID, again *)

(** The resource ID is the hash of the instance IDs of the listing result,
    dereferenced, in order; and an invocation sets the ID at most once. *)
Theorem resource_id_is_hash_of_instance_ids (d : ResourceData) (w : World)
    (instanceId : string) (projectId : Z) (vpcId subnetId : string)
    (netType : Z) (l : list DBInstance) (err : option error) (id : string) :
  In (CallDescribeSqlserverInstances instanceId projectId vpcId subnetId
        netType (l, err)) (trace (handler_run d w).2) →
  In (CallSetId id) (trace (handler_run d w).2) →
  (∃ ids, InstanceId <$> l = Some <$> ids ∧ id = DataResourceIdsHash ids) ∧
  List.filter is_set_id (trace (handler_run d w).2) = [CallSetId id].
Proof.
  intros Hl Hin. split; [by eapply run_set_id|]. clear Hl. revert Hin.
  outcome_cases d w; intros Hin; split_in Hin; try not_a_tag_call Hin;
    injection Hin as <-;
    cbn [List.filter is_set_id listing_call];
    rewrite List.filter_app;
    (erewrite (iterations_filter is_set_id);
       [|intros ev; by destruct ev|eassumption]);
    reflexivity.
Qed.

(** ** The trace as a log of the world *)

Lemma replays_snoc (tr : list event) (ev : event) (w0 w1 w2 : World) :
  replays svc tr w0 w1 → answers svc ev w1 w2 →
  replays svc (tr ++ [ev]) w0 w2.
Proof.
  induction tr as [|ev' tr IH] in w0 |- *; cbn [replays app].
  - intros -> Hev. by exists w2.
  - intros (w' & Hev' & Htr) Hev. exists w'. eauto.
Qed.

Lemma replays_In (tr : list event) (ev : event) (w0 w1 : World) :
  replays svc tr w0 w1 → In ev tr → ∃ w w', answers svc ev w w'.
Proof.
  induction tr as [|ev' tr IH] in w0 |- *; cbn [replays]; [intros _ []|].
  intros (w' & Hev' & Htr) [->|Hin]; eauto.
Qed.

Lemma keeps_log_ret {A : Type} (a : A) : keeps_log svc (ret a).
Proof. by intros st w0. Qed.

Lemma keeps_log_fail {A : Type} (e : error) : keeps_log svc (@fail World A e).
Proof. by intros st w0. Qed.

Lemma keeps_log_deref {A : Type} (p : option A) :
  keeps_log svc (@deref World A p).
Proof. intros st w0. unfold deref. by destruct p. Qed.

Lemma keeps_log_get_d : keeps_log svc (@get_d World).
Proof. by intros st w0. Qed.

Lemma keeps_log_bind {A B : Type} (m : M World A) (k : A → M World B) :
  keeps_log svc m → (∀ a, keeps_log svc (k a)) → keeps_log svc (bind m k).
Proof.
  intros Hm Hk st w0 Hst. unfold bind. specialize (Hm st w0 Hst).
  destruct (m st) as [[a|e|] st1]; [by apply Hk|done|done].
Qed.

Lemma keeps_log_DescribeSqlserverInstances (i : string) (p : Z)
    (v s : string) (t : Z) :
  keeps_log svc (call_DescribeSqlserverInstances svc i p v s t).
Proof.
  intros st w0 Hst. unfold call_DescribeSqlserverInstances.
  destruct (DescribeSqlserverInstances svc i p v s t (world st))
    as [res w1] eqn:Hcall.
  by eapply replays_snoc.
Qed.

Lemma keeps_log_DescribeResourceTags (a b c r : string) :
  keeps_log svc (call_DescribeResourceTags svc a b c r).
Proof.
  intros st w0 Hst. unfold call_DescribeResourceTags.
  destruct (DescribeResourceTags svc a b c r (world st)) as [res w1] eqn:Hcall.
  by eapply replays_snoc.
Qed.

Lemma keeps_log_SetId (v : string) : keeps_log svc (@call_SetId World v).
Proof. intros st w0 Hst. by eapply replays_snoc. Qed.

Lemma keeps_log_Set_instance_list (v : list (gmap string value)) :
  keeps_log svc (call_Set_instance_list svc v).
Proof.
  intros st w0 Hst. unfold call_Set_instance_list.
  destruct (ResourceData_Set svc "instance_list" v (world st))
    as [res w1] eqn:Hcall.
  by eapply replays_snoc.
Qed.

Lemma keeps_log_writeToFile (path : string) (v : list (gmap string value)) :
  keeps_log svc (call_writeToFile svc path v).
Proof.
  intros st w0 Hst. unfold call_writeToFile.
  destruct (writeToFile svc path v (world st)) as [res w1] eqn:Hcall.
  by eapply replays_snoc.
Qed.

Ltac keeps_log_step :=
  first
    [ apply keeps_log_ret | apply keeps_log_fail | apply keeps_log_deref
    | apply keeps_log_get_d | apply keeps_log_DescribeSqlserverInstances
    | apply keeps_log_DescribeResourceTags | apply keeps_log_SetId
    | apply keeps_log_Set_instance_list | apply keeps_log_writeToFile
    | apply keeps_log_bind; [|intros ?]
    | match goal with
      | |- keeps_log _ (match ?x with _ => _ end) => destruct x
      end ].

Lemma keeps_log_loop_body (v : DBInstance) : keeps_log svc (body v).
Proof.
  unfold loop_body, mbind, M_bind, mret, M_ret. cbv zeta.
  repeat keeps_log_step.
Qed.

Lemma keeps_log_flatten_loop (l : list DBInstance) (ids : list string)
    (lst : list (gmap string value)) :
  keeps_log svc (loop l ids lst).
Proof.
  induction l as [|v rest IH] in ids, lst |- *; cbn [flatten_loop].
  - apply keeps_log_ret.
  - unfold mbind, M_bind. apply keeps_log_bind;
      [apply keeps_log_loop_body|].
    intros [item iid]. apply IH.
Qed.

Lemma keeps_log_handler :
  keeps_log svc
    (dataSourceTencentCloudSqlserverBasicInstanceRead DataResourceIdsHash
       COMMON_PAYTYPE_PREPAID COMMON_PAYTYPE_POSTPAID svc meta).
Proof.
  unfold dataSourceTencentCloudSqlserverBasicInstanceRead, return_error,
    mbind, M_bind, mret, M_ret.
  apply keeps_log_bind; [apply keeps_log_get_d|]. intros d. cbv zeta.
  apply keeps_log_bind; [apply keeps_log_DescribeSqlserverInstances|].
  intros [l [e|]]; [apply keeps_log_fail|].
  apply keeps_log_bind; [apply keeps_log_flatten_loop|].
  intros [ids lst]. repeat keeps_log_step.
Qed.

(** The calls of an invocation, replayed one after the other from the
    initial world, are answered as the trace records and leave the final
    world. *)
Lemma run_replays (d : ResourceData) (w : World) :
  replays svc (trace (handler_run d w).2) w (world (handler_run d w).2).
Proof. unfold run. by apply keeps_log_handler. Qed.

(** ** The order of the calls *)

(** Every invocation makes its calls in this order: first the listing call,
    with the filters of the configuration, answered by the listing service
    in the initial world; then tag calls only; then, and only after the last
    service call, the writes, in the order ID, [instance_list], file, with
    the same list for [instance_list] and for the file. *)
Theorem service_calls_precede_updates (d : ResourceData) (w : World) :
  ∃ res evs ups,
    trace (handler_run d w).2 = listing_call d res :: evs ++ ups ∧
    (DescribeSqlserverInstances svc (default "" (cfg_id d))
       (project_filter d) (default "" (cfg_vpc_id d))
       (default "" (cfg_subnet_id d)) 1 w).1 = res ∧
    Forall (λ ev, is_tag_call ev = true) evs ∧
    ∃ id out r path r',
      ups `prefix_of`
        [CallSetId id; CallSet "instance_list" out r;
         CallWriteToFile path out r'].
Proof.
  pose proof (run_replays d w) as Hrep. revert Hrep.
  assert (Htags : ∀ l evs items,
    Forall3 iteration l evs items → Forall (λ ev, is_tag_call ev = true) evs).
  { intros l evs items HF. erewrite <- (iterations_tag_calls l evs items HF).
    apply Forall_forall. intros ev Hin.
    apply list_elem_of_In, List.filter_In in Hin. tauto. }
  outcome_cases d w; cbn [replays answers listing_call];
    intros (w1 & Hans & _); rewrite Hans; cbn [fst].
  - exists (l, Some e), [], []. repeat split; [constructor|].
    exists "", [], None, "", None. apply prefix_nil.
  - exists (l1 ++ v :: l2, None), evs, []. rewrite app_nil_r.
    repeat split; [by eapply Htags|].
    exists "", [], None, "", None. apply prefix_nil.
  - exists (l1 ++ v :: l2, None), (evs ++ [ev]), []. rewrite app_nil_r.
    repeat split.
    + apply Forall_app. split; [by eapply Htags|].
      constructor; [|constructor].
      by apply failed_iteration_tag_call in H0 as (? & _).
    + exists "", [], None, "", None. apply prefix_nil.
  - exists (l, None), evs, [CallSetId (DataResourceIdsHash ids);
                            CallSet "instance_list" items (Some e)].
    repeat split; [by eapply Htags|].
    exists (DataResourceIdsHash ids), items, (Some e), "", None.
    by exists [CallWriteToFile "" items None].
  - exists (l, None), evs, [CallSetId (DataResourceIdsHash ids);
                            CallSet "instance_list" items None].
    repeat split; [by eapply Htags|].
    exists (DataResourceIdsHash ids), items, None, "", None.
    by exists [CallWriteToFile "" items None].
  - exists (l, None), evs, [CallSetId (DataResourceIdsHash ids);
                            CallSet "instance_list" items None;
                            CallWriteToFile path items res].
    repeat split; [by eapply Htags|].
    by exists (DataResourceIdsHash ids), items, None, path, res.
Qed.

(** ** Success *)

(** The handler does succeed when nothing around it fails.  When the
    listing service answers the call of the handler, in the initial world,
    with a list of instances whose [PayMode] and [InstanceId] are not nil,
    and the tag service, [d.Set] and the file writer never return an error,
    the handler returns nil, and the resource data then hold one output
    element per instance and, as the ID, the hash of the instance IDs. *)
Theorem handler_succeeds (d : ResourceData) (w : World)
    (l : list DBInstance) :
  (DescribeSqlserverInstances svc (default "" (cfg_id d))
     (project_filter d) (default "" (cfg_vpc_id d))
     (default "" (cfg_subnet_id d)) 1 w).1 = (l, None) →
  Forall no_nil_pointers l →
  (∀ a b c r w', (DescribeResourceTags svc a b c r w').1.2 = None) →
  (∀ key v w', (ResourceData_Set svc key v w').1 = None) →
  (∀ path v w', (writeToFile svc path v w').1 = None) →
  (handler_run d w).1 = Ret tt ∧
  ∃ out ids,
    rd_instance_list (rdata (handler_run d w).2) = Some out ∧
    length out = length l ∧
    InstanceId <$> l = Some <$> ids ∧
    rd_Id (rdata (handler_run d w).2) = DataResourceIdsHash ids.
Proof.
  intros Hl Hnil Htags Hset Hwrite.
  pose proof (run_replays d w) as Hrep. revert Hrep.
  outcome_cases d w; intros Hrep;
    pose proof Hrep as (w1 & Hans & _);
    cbn [answers listing_call] in Hans; rewrite Hans in Hl;
    injection Hl as <-; try discriminate.
  - exfalso. apply Forall_app in Hnil as [_ Hnil].
    by apply Forall_cons in Hnil as [Hv _].
  - exfalso.
    match goal with H : failed_iteration_of _ _ _ _ |- _ =>
      destruct H as (rid & tags & _ & _ & ->) end.
    destruct (replays_In _ (CallDescribeResourceTags "sqlserver" "instance"
                              (Region meta) rid (tags, Some e)) _ _ Hrep)
      as (wa & wb & Ha); [cbn [In]; rewrite in_app_iff; cbn [In]; eauto 10|].
    cbn [answers] in Ha.
    specialize (Htags "sqlserver" "instance" (Region meta) rid wa).
    rewrite Ha in Htags. discriminate Htags.
  - exfalso.
    destruct (replays_In _ (CallSet "instance_list" items (Some e)) _ _ Hrep)
      as (wa & wb & Ha); [cbn [In]; rewrite in_app_iff; cbn [In]; eauto 10|].
    cbn [answers] in Ha. specialize (Hset "instance_list" items wa).
    rewrite Ha in Hset. discriminate Hset.
  - split; [done|]. exists items, ids. repeat split; try done.
    symmetry. by eapply Forall3_length_lr.
  - destruct (replays_In _ (CallWriteToFile path items res) _ _ Hrep)
      as (wa & wb & Ha); [cbn [In]; rewrite in_app_iff; cbn [In]; eauto 10|].
    cbn [answers] in Ha. specialize (Hwrite path items wa).
    rewrite Ha in Hwrite. cbn [fst] in Hwrite. subst res.
    split; [done|]. exists items, ids. repeat split; try done.
    symmetry. by eapply Forall3_length_lr.
Qed.

(** ** The stored state is not read *)

Lemma loop_body_ignores_rdata (v : DBInstance) (w : World)
    (tr : list event) (r1 r2 : ResourceData) :
  ∃ res w' tr',
    body v {| world := w; rdata := r1; trace := tr |} =
    (res, {| world := w'; rdata := r1; trace := tr' |}) ∧
    body v {| world := w; rdata := r2; trace := tr |} =
    (res, {| world := w'; rdata := r2; trace := tr' |}).
Proof.
  unfold loop_body. unfold_monad.
  destruct (PayMode v) as [p|]; [|by eauto].
  destruct (InstanceId v) as [rid|]; [|by eauto].
  cbn [world rdata trace].
  destruct (DescribeResourceTags svc _ _ _ _ w) as [[tags [e|]] w'];
    by eauto.
Qed.

Lemma flatten_loop_ignores_rdata (l : list DBInstance) (ids : list string)
    (lst : list (gmap string value)) (w : World) (tr : list event)
    (r1 r2 : ResourceData) :
  ∃ res w' tr',
    loop l ids lst {| world := w; rdata := r1; trace := tr |} =
    (res, {| world := w'; rdata := r1; trace := tr' |}) ∧
    loop l ids lst {| world := w; rdata := r2; trace := tr |} =
    (res, {| world := w'; rdata := r2; trace := tr' |}).
Proof.
  induction l as [|v rest IH] in ids, lst, w, tr |- *; cbn [flatten_loop].
  - by eauto.
  - unfold mbind, M_bind, bind.
    destruct (loop_body_ignores_rdata v w tr r1 r2)
      as (res & w' & tr' & -> & ->).
    destruct res as [[item iid]|e|]; [apply IH|by eauto|by eauto].
Qed.

(** Invocations on resource data with the same arguments go the same way. *)
Lemma same_arguments_same_run (d d' : ResourceData) (w : World) :
  same_arguments d d' →
  (handler_run d w).1 = (handler_run d' w).1 ∧
  trace (handler_run d w).2 = trace (handler_run d' w).2 ∧
  world (handler_run d w).2 = world (handler_run d' w).2 ∧
  ((handler_run d w).1 = Ret tt →
   rd_Id (rdata (handler_run d w).2) = rd_Id (rdata (handler_run d' w).2) ∧
   rd_instance_list (rdata (handler_run d w).2) =
   rd_instance_list (rdata (handler_run d' w).2)).
Proof.
  intros (Hid & Hproj & Hvpc & Hsub & Hout).
  unfold run, dataSourceTencentCloudSqlserverBasicInstanceRead.
  unfold mbind, M_bind, bind, get_d, call_DescribeSqlserverInstances.
  cbn [world rdata trace]. rewrite <- Hid, <- Hproj, <- Hvpc, <- Hsub, <- Hout.
  destruct (DescribeSqlserverInstances svc _ _ _ _ _ w) as [[l [e|]] w1];
    [done|].
  match goal with |- context [loop l [] [] {| world := ?w; rdata := d;
                                             trace := ?tr |}] =>
    destruct (flatten_loop_ignores_rdata l [] [] w tr d d')
      as (res & w' & tr' & -> & ->)
  end.
  destruct res as [[ids lst]|e|]; [|done|done].
  unfold call_SetId, call_Set_instance_list, call_writeToFile, return_error,
    fail, mret, M_ret, ret.
  cbn [world rdata trace].
  destruct (ResourceData_Set svc _ _ w') as [[e|] w3]; [done|].
  destruct (GetOk_string (cfg_result_output_file d)) as [output ok].
  destruct (ok && negb (String.eqb output "")); [|done].
  cbn [world rdata trace].
  destruct (writeToFile svc output lst w3) as [[e|] w4]; done.
Qed.

(** The handler reads the arguments of the resource data and nothing else
    of them: two invocations in the same world whose resource data have the
    same arguments, whatever ID and [instance_list] they hold from before,
    return the same result, make the same calls and leave the same world;
    and when they return nil they leave the same ID and the same
    [instance_list]. *)
Theorem stored_state_is_not_read (d d' : ResourceData) (w : World) :
  same_arguments d d' →
  (handler_run d w).1 = (handler_run d' w).1 ∧
  trace (handler_run d w).2 = trace (handler_run d' w).2 ∧
  world (handler_run d w).2 = world (handler_run d' w).2 ∧
  ((handler_run d w).1 = Ret tt →
   rd_Id (rdata (handler_run d w).2) = rd_Id (rdata (handler_run d' w).2) ∧
   rd_instance_list (rdata (handler_run d w).2) =
   rd_instance_list (rdata (handler_run d' w).2)).
Proof. apply same_arguments_same_run. Qed.

(** ** The calls and the world *)

Lemma replays_app_inv (tr1 tr2 : list event) (w0 w2 : World) :
  replays svc (tr1 ++ tr2) w0 w2 →
  ∃ w1, replays svc tr1 w0 w1 ∧ replays svc tr2 w1 w2.
Proof.
  induction tr1 as [|ev tr1 IH] in w0 |- *; cbn [replays app].
  - intros Htr. by exists w0.
  - intros (w' & Hev & Htr). destruct (IH _ Htr) as (w1 & Htr1 & Htr2).
    exists w1. eauto.
Qed.

Lemma replays_last (pre : list event) (ev : event) (w0 w2 : World) :
  replays svc (pre ++ [ev]) w0 w2 →
  ∃ w1, replays svc pre w0 w1 ∧ answers svc ev w1 w2.
Proof.
  intros Htr. apply replays_app_inv in Htr as (w1 & Hpre & Hev).
  destruct Hev as (w2' & Hev & ->). eauto.
Qed.

(** The first call of an invocation is the listing call: the listing service
    is asked, in the initial world, with the filters of the configuration
    and instance type 1; what it answers is what the trace records; and the
    other calls of the invocation, none of them a listing call, are made
    from the world the listing service left and lead to the final world. *)
Lemma run_first_call (d : ResourceData) (w : World) :
  ∃ res w1 rest,
    DescribeSqlserverInstances svc (default "" (cfg_id d))
      (project_filter d) (default "" (cfg_vpc_id d))
      (default "" (cfg_subnet_id d)) 1 w = (res, w1) ∧
    trace (handler_run d w).2 = listing_call d res :: rest ∧
    List.filter is_listing rest = [] ∧
    replays svc rest w1 (world (handler_run d w).2).
Proof.
  pose proof (run_replays d w) as Hrep.
  destruct (run_listing_calls d w) as [res' Hf]. revert Hrep Hf.
  outcome_cases d w; cbn [replays answers listing_call List.filter is_listing];
    intros (w1 & Hans & Hrest) Hf;
    apply (f_equal (@tail event)) in Hf; cbn [tail] in Hf;
    do 3 eexists; (split; [exact Hans|]); (split; [reflexivity|]);
    by split.
Qed.

(** C6: every invocation calls the instance listing service with instance
    type 1, whatever the configured filter arguments are.  The listing
    service is asked with instance type 1 in the initial world; its answer
    is the first call of the trace and the only listing call; and the rest
    of the invocation goes on from the world that call left. *)
Theorem listing_instance_type_is_1 (d : ResourceData) (w : World) :
  ∃ instanceId projectId vpcId subnetId res w1 rest,
    DescribeSqlserverInstances svc instanceId projectId vpcId subnetId 1 w =
    (res, w1) ∧
    trace (handler_run d w).2 =
    CallDescribeSqlserverInstances instanceId projectId vpcId subnetId 1 res
    :: rest ∧
    List.filter is_listing rest = [] ∧
    replays svc rest w1 (world (handler_run d w).2).
Proof.
  destruct (run_first_call d w) as (res & w1 & rest & Hcall & Htr & Hf & Hrep).
  exists (default "" (cfg_id d)), (project_filter d),
    (default "" (cfg_vpc_id d)), (default "" (cfg_subnet_id d)), res, w1, rest.
  by rewrite Htr.
Qed.

(** C4, at [project_id = 0]: the handler does not pass the configured
    project 0 to the listing service.  [d.GetOk] reports a [project_id] set
    to 0 as not set, [projectId] keeps its initial value, and the listing
    service is asked, in the initial world, with project filter -1; that
    call is the only listing call of the invocation. *)
Theorem project_id_zero_is_dropped (d : ResourceData) (w : World) :
  cfg_project_id d = Some 0 →
  ∃ res w1 rest,
    DescribeSqlserverInstances svc (default "" (cfg_id d)) (-1)
      (default "" (cfg_vpc_id d)) (default "" (cfg_subnet_id d)) 1 w =
    (res, w1) ∧
    trace (handler_run d w).2 =
    CallDescribeSqlserverInstances (default "" (cfg_id d)) (-1)
      (default "" (cfg_vpc_id d)) (default "" (cfg_subnet_id d)) 1 res
    :: rest ∧
    List.filter is_listing rest = [] ∧
    replays svc rest w1 (world (handler_run d w).2).
Proof.
  intros Hzero.
  destruct (run_first_call d w) as (res & w1 & rest & Hcall & Htr & Hf & Hrep).
  unfold listing_call, project_filter in *. rewrite Hzero in *.
  cbn [Z.eqb] in *. by exists res, w1, rest.
Qed.

(** C2: for every instance of the listing result, the handler calls the tag
    service once, with service type "sqlserver", resource prefix "instance",
    the client's region and that instance's [InstanceId], and stores the
    returned tags as the [tags] field of that instance's output element.
    The calls of the trace are the calls made: replayed from the initial
    world they are answered by the services as recorded, every tag call by
    the tag service, and they leave the final world.  The tag calls of an
    invocation that hands over a result set are, in order, one such call
    per instance, and the tags the service answered are the [tags] of the
    instance's element.  If a tag call returns an error, the handler
    returns that error.  Unless the handler panics or a tag call fails, it
    does hand over a result set. *)
Theorem tag_call_per_instance (d : ResourceData) (w : World)
    (instanceId : string) (projectId : Z) (vpcId subnetId : string)
    (netType : Z) (l : list DBInstance) :
  In (CallDescribeSqlserverInstances instanceId projectId vpcId subnetId
        netType (l, None)) (trace (handler_run d w).2) →
  replays svc (trace (handler_run d w).2) w (world (handler_run d w).2) ∧
  (∀ serviceType resourceType region resourceId res,
     In (CallDescribeResourceTags serviceType resourceType region resourceId
           res) (trace (handler_run d w).2) →
     ∃ w1 w2,
       DescribeResourceTags svc serviceType resourceType region resourceId
         w1 = (res, w2)) ∧
  (∀ ev out,
     In ev (trace (handler_run d w).2) → output_of ev = Some out →
     Forall3 (tag_call_of (Region meta)) l
       (List.filter is_tag_call (trace (handler_run d w).2)) out) ∧
  (∀ ev e,
     In ev (trace (handler_run d w).2) → tag_error ev = Some e →
     (handler_run d w).1 = Err e) ∧
  ((handler_run d w).1 ≠ Panic →
   (∀ ev, In ev (trace (handler_run d w).2) → tag_error ev = None) →
   ∃ out r, In (CallSet "instance_list" out r) (trace (handler_run d w).2)).
Proof.
  intros Hl. split; [apply run_replays|]. split; [|split; [|split]].
  - intros a b c r res Hin.
    destruct (replays_In _ _ _ _ (run_replays d w) Hin) as (w1 & w2 & Ha).
    by exists w1, w2.
  - intros ev out Hin Hout.
    eapply Forall3_impl; [by eapply run_output|].
    apply iteration_tag_call.
  - intros ev e Hin Herr. apply tag_error_service_error in Herr.
    by destruct (run_service_error d w ev e Hin Herr).
  - apply run_listing_call in Hl as [Hf _]. revert Hf.
    outcome_cases d w; intros Hf Hr Hok;
      apply listing_call_first in Hf; try discriminate Hf; try done.
    + match goal with H : failed_iteration_of _ _ _ _ |- _ =>
        apply failed_iteration_tag_call in H as (_ & _ & _ & _ & _ & He) end.
      rewrite Hok in He; [discriminate He|].
      cbn [In]. rewrite in_app_iff. cbn [In]. auto 10.
    + do 2 eexists. cbn [In]. rewrite in_app_iff. cbn [In]. eauto 10.
    + do 2 eexists. cbn [In]. rewrite in_app_iff. cbn [In]. eauto 10.
    + do 2 eexists. cbn [In]. rewrite in_app_iff. cbn [In]. eauto 10.
Qed.

(** The file write of an invocation is its last call, and what it does to
    the world is what the file writer does: the calls before it lead from
    the initial world to some world, and the final world is the one the
    writer leaves when asked there to write the list to the path. *)
Lemma run_file_write_world (d : ResourceData) (w : World) (path : string)
    (out : list (gmap string value)) (res : option error) :
  In (CallWriteToFile path out res) (trace (handler_run d w).2) →
  ∃ pre wb,
    trace (handler_run d w).2 = pre ++ [CallWriteToFile path out res] ∧
    List.filter is_file_write pre = [] ∧
    replays svc pre w wb ∧
    writeToFile svc path out wb = (res, world (handler_run d w).2).
Proof.
  pose proof (run_replays d w) as Hrep. revert Hrep.
  outcome_cases d w; intros Hrep Hin; split_in Hin; try not_a_tag_call Hin.
  injection Hin as -> -> ->.
  exists (listing_call d (l, None) :: evs ++
            [CallSetId (DataResourceIdsHash ids);
             CallSet "instance_list" out None]).
  assert (Heq : listing_call d (l, None) :: evs ++
            [CallSetId (DataResourceIdsHash ids);
             CallSet "instance_list" out None;
             CallWriteToFile path out res] =
          (listing_call d (l, None) :: evs ++
            [CallSetId (DataResourceIdsHash ids);
             CallSet "instance_list" out None]) ++
          [CallWriteToFile path out res]).
  { cbn [app]. by rewrite <- app_assoc. }
  rewrite Heq in Hrep. apply replays_last in Hrep as (wb & Hpre & Hans).
  exists wb. split; [exact Heq|]. split; [by file_writes|]. by split.
Qed.

(** C5: the handler writes the result set to a file exactly when the
    [result_output_file] argument is configured and not empty.  A file
    write of an invocation is its only one and its last call, goes to the
    configured, non-empty path, writes the list that was set as
    [instance_list], its result is what the handler returns, and the final
    world is the world the file writer leaves.  Once the handler has set
    [instance_list], a configured, non-empty [result_output_file] is
    written, by the file writer, with that list.  Without one the handler
    writes no file (the final world is reached by the other calls alone)
    and returns nil. *)
Theorem output_file_written_iff_configured (d : ResourceData) (w : World) :
  (∀ path out res,
     In (CallWriteToFile path out res) (trace (handler_run d w).2) →
     cfg_result_output_file d = Some path ∧ path ≠ "" ∧
     In (CallSet "instance_list" out None) (trace (handler_run d w).2) ∧
     List.filter is_file_write (trace (handler_run d w).2) =
     [CallWriteToFile path out res] ∧
     (handler_run d w).1 =
     match res with Some e => Err e | None => Ret tt end ∧
     ∃ pre wb,
       trace (handler_run d w).2 = pre ++ [CallWriteToFile path out res] ∧
       List.filter is_file_write pre = [] ∧
       replays svc pre w wb ∧
       writeToFile svc path out wb = (res, world (handler_run d w).2)) ∧
  (∀ out path,
     In (CallSet "instance_list" out None) (trace (handler_run d w).2) →
     cfg_result_output_file d = Some path → path ≠ "" →
     ∃ res pre wb,
       trace (handler_run d w).2 = pre ++ [CallWriteToFile path out res] ∧
       replays svc pre w wb ∧
       writeToFile svc path out wb = (res, world (handler_run d w).2)) ∧
  ((¬ ∃ path, cfg_result_output_file d = Some path ∧ path ≠ "") →
   List.filter is_file_write (trace (handler_run d w).2) = [] ∧
   replays svc (trace (handler_run d w).2) w (world (handler_run d w).2) ∧
   ∀ out,
     In (CallSet "instance_list" out None) (trace (handler_run d w).2) →
     (handler_run d w).1 = Ret tt).
Proof.
  split; [|split].
  - intros path out res Hin.
    destruct (run_file_write d w path out res Hin)
      as (Hcfg & Hne & Hset & Hf & Hr).
    repeat (split; [done|]). by apply run_file_write_world.
  - intros out path Hset Hcfg Hne.
    destruct (run_file_written d w path out Hset Hcfg Hne) as [res Hin].
    destruct (run_file_write_world d w path out res Hin)
      as (pre & wb & Htr & _ & Hpre & Hw).
    by exists res, pre, wb.
  - intros Hno. destruct (run_no_file d w Hno) as [Hf Hr].
    split; [done|]. split; [apply run_replays|done].
Qed.

(** When [d.Set] rejects the list, the handler returns that error at once:
    the rejected call is the last call of the invocation and no file is
    written.  The resource ID has been set by then and stays set, to the
    hash of the instance IDs of the listing result, in order, while
    [instance_list] keeps the value it had before the invocation. *)
Theorem set_failure_keeps_id (d : ResourceData) (w : World)
    (instanceId : string) (projectId : Z) (vpcId subnetId : string)
    (netType : Z) (l : list DBInstance) (err : option error) (key : string)
    (out : list (gmap string value)) (e : error) :
  In (CallDescribeSqlserverInstances instanceId projectId vpcId subnetId
        netType (l, err)) (trace (handler_run d w).2) →
  In (CallSet key out (Some e)) (trace (handler_run d w).2) →
  (handler_run d w).1 = Err e ∧
  (∃ pre, trace (handler_run d w).2 = pre ++ [CallSet key out (Some e)]) ∧
  List.filter is_file_write (trace (handler_run d w).2) = [] ∧
  rd_instance_list (rdata (handler_run d w).2) = rd_instance_list d ∧
  ∃ ids,
    InstanceId <$> l = Some <$> ids ∧
    rd_Id (rdata (handler_run d w).2) = DataResourceIdsHash ids ∧
    In (CallSetId (DataResourceIdsHash ids)) (trace (handler_run d w).2).
Proof.
  intros Hl. apply run_listing_call in Hl as [Hf _]. revert Hf.
  outcome_cases d w; intros Hf Hin; apply listing_call_first in Hf;
    injection Hf as <- <-; split_in Hin; try not_a_tag_call Hin.
  injection Hin as <- <- <-. split; [done|]. split.
  { eexists (_ :: evs ++ [CallSetId (DataResourceIdsHash ids)]).
    cbn [app]. by rewrite <- app_assoc. }
  split; [by file_writes|]. split; [done|].
  exists ids. split; [done|]. split; [done|].
  cbn [In]. rewrite in_app_iff. cbn [In]. auto 10.
Qed.

End Properties.

(** C3: the resource ID the handler sets is a function of the sequence of
    instance IDs of the result set.  Take two invocations, in any two worlds
    and with any two configurations, whose listing calls return instances
    with the same [InstanceId]s in the same order: an ID set by the one and
    an ID set by the other are the same ID, and when both return nil the
    resource data of both hold the same ID. *)
Theorem resource_id_deterministic {World1 World2 : Type}
    (DataResourceIdsHash : list string → string)
    (COMMON_PAYTYPE_PREPAID COMMON_PAYTYPE_POSTPAID : string)
    (svc1 : Services World1) (svc2 : Services World2)
    (meta1 meta2 : TencentCloudClient) (d1 d2 : ResourceData)
    (w1 : World1) (w2 : World2)
    (instanceId1 instanceId2 : string) (projectId1 projectId2 : Z)
    (vpcId1 vpcId2 subnetId1 subnetId2 : string) (netType1 netType2 : Z)
    (l1 l2 : list DBInstance) (err1 err2 : option error) :
  let run1 := run DataResourceIdsHash COMMON_PAYTYPE_PREPAID
                COMMON_PAYTYPE_POSTPAID svc1 meta1 d1 w1 in
  let run2 := run DataResourceIdsHash COMMON_PAYTYPE_PREPAID
                COMMON_PAYTYPE_POSTPAID svc2 meta2 d2 w2 in
  In (CallDescribeSqlserverInstances instanceId1 projectId1 vpcId1 subnetId1
        netType1 (l1, err1)) (trace run1.2) →
  In (CallDescribeSqlserverInstances instanceId2 projectId2 vpcId2 subnetId2
        netType2 (l2, err2)) (trace run2.2) →
  InstanceId <$> l1 = InstanceId <$> l2 →
  (∀ id1 id2,
     In (CallSetId id1) (trace run1.2) → In (CallSetId id2) (trace run2.2) →
     id1 = id2) ∧
  (run1.1 = Ret tt → run2.1 = Ret tt →
   rd_Id (rdata run1.2) = rd_Id (rdata run2.2)).
Proof.
  cbv zeta. intros Hl1 Hl2 Hsame.
  match goal with |- ?P ∧ _ => assert (Hids : P) end.
  { intros id1 id2 Hin1 Hin2.
    destruct (run_set_id _ _ _ _ _ _ _ _ _ _ _ _ _ _ _ Hl1 Hin1)
      as (ids1 & Hids1 & ->).
    destruct (run_set_id _ _ _ _ _ _ _ _ _ _ _ _ _ _ _ Hl2 Hin2)
      as (ids2 & Hids2 & ->).
    f_equal. apply (inj (fmap Some)). congruence. }
  split; [exact Hids|]. intros Hr1 Hr2.
  destruct (run_success _ _ _ _ _ _ _ Hr1) as (out1 & ids1 & _ & -> & _ & Hin1).
  destruct (run_success _ _ _ _ _ _ _ Hr2) as (out2 & ids2 & _ & -> & _ & Hin2).
  by apply Hids.
Qed.

(** ** Concrete runs *)


Lemma error_leaves_state_unchanged_witness :
  (Scripted.play Scripted.all_arguments Scripted.tags_down).1 =
  Err "tags failed" ∧
  rdata (Scripted.play Scripted.all_arguments Scripted.tags_down).2 =
  Scripted.all_arguments ∧
  List.filter is_update
    (trace (Scripted.play Scripted.all_arguments Scripted.tags_down).2) = [].
Proof.
  apply (error_leaves_state_unchanged Scripted.hash "PREPAID"
           "POSTPAID_BY_HOUR" Scripted.services Scripted.client
           Scripted.all_arguments Scripted.tags_down
           Scripted.failed_tag_call "tags failed").
  - vm_compute. right. right. left. reflexivity.
  - reflexivity.
Defined.

Lemma flattened_list_copies_fields_witness :
  ∃ out,
    rd_instance_list
      (rdata (Scripted.play Scripted.all_arguments Scripted.healthy).2) =
    Some out ∧
    Forall2 copies_fields Scripted.two_instances out.
Proof.
  apply (flattened_list_copies_fields Scripted.hash "PREPAID"
           "POSTPAID_BY_HOUR" Scripted.services Scripted.client
           Scripted.all_arguments Scripted.healthy
           "mssql-a" 7 "vpc-26w7r56z" "subnet-lvlr6eeu" 1
           Scripted.two_instances None).
  - vm_compute. left. reflexivity.
  - vm_compute. reflexivity.
Defined.

Lemma charge_type_from_pay_mode_witness :
  ∃ out,
    rd_instance_list
      (rdata (Scripted.play Scripted.all_arguments Scripted.healthy).2) =
    Some out ∧
    Forall2 (charge_type_of "PREPAID" "POSTPAID_BY_HOUR")
      Scripted.two_instances out.
Proof.
  apply (charge_type_from_pay_mode Scripted.hash "PREPAID"
           "POSTPAID_BY_HOUR" Scripted.services Scripted.client
           Scripted.all_arguments Scripted.healthy
           "mssql-a" 7 "vpc-26w7r56z" "subnet-lvlr6eeu" 1
           Scripted.two_instances None).
  - vm_compute. left. reflexivity.
  - vm_compute. reflexivity.
Defined.

Lemma resource_id_deterministic_witness :
  rd_Id (rdata (Scripted.play Scripted.all_arguments Scripted.healthy).2) =
  rd_Id (rdata (run Scripted.hash "PREPAID" "POSTPAID_BY_HOUR"
                  Scripted.services Scripted.other_client
                  Scripted.no_arguments Scripted.healthy_too).2).
Proof.
  apply (resource_id_deterministic Scripted.hash "PREPAID" "POSTPAID_BY_HOUR"
           Scripted.services Scripted.services
           Scripted.client Scripted.other_client
           Scripted.all_arguments Scripted.no_arguments
           Scripted.healthy Scripted.healthy_too
           "mssql-a" "" 7 (-1) "vpc-26w7r56z" "" "subnet-lvlr6eeu" "" 1 1
           Scripted.two_instances
           [Scripted.instance "mssql-a" 1; Scripted.instance "mssql-b" 1]
           None None).
  - vm_compute. left. reflexivity.
  - vm_compute. left. reflexivity.
  - reflexivity.
  - vm_compute. reflexivity.
  - vm_compute. reflexivity.
Defined.

Lemma no_nil_dereference_witness :
  (Scripted.play Scripted.all_arguments Scripted.healthy).1 ≠ Panic ∧
  (Scripted.play Scripted.no_arguments Scripted.nil_pay_mode).1 = Panic.
Proof.
  split.
  - apply (proj1 (no_nil_dereference Scripted.hash "PREPAID"
             "POSTPAID_BY_HOUR" Scripted.services Scripted.client
             Scripted.all_arguments Scripted.healthy
             "mssql-a" 7 "vpc-26w7r56z" "subnet-lvlr6eeu" 1
             Scripted.two_instances None
             ltac:(vm_compute; left; reflexivity))).
    repeat (constructor; [split; eexists; reflexivity|]). constructor.
  - eapply (proj2 (no_nil_dereference Scripted.hash "PREPAID"
              "POSTPAID_BY_HOUR" Scripted.services Scripted.client
              Scripted.no_arguments Scripted.nil_pay_mode
              "" (-1) "" "" 1 (fst (Scripted.listing Scripted.nil_pay_mode))
              None ltac:(vm_compute; left; reflexivity))).
    + reflexivity.
    + reflexivity.
    + intros [[p Hp] _]. discriminate Hp.
Defined.

(** ** More concrete runs *)

Lemma output_keys_are_schema_keys_witness :
  ∃ sch elem,
    Schema (dataSourceTencentCloudSqlserverBasicInstances Scripted.hash
              "PREPAID" "POSTPAID_BY_HOUR" Scripted.services)
      !! "instance_list" = Some sch ∧
    Type_ sch = TypeList ∧ Elem sch = Some elem ∧
    Forall (λ item, dom item = dom (Schema elem)) Scenarios.healthy_items.
Proof.
  apply (output_keys_are_schema_keys Scripted.hash "PREPAID"
           "POSTPAID_BY_HOUR" Scripted.services Scripted.client
           Scripted.no_arguments Scripted.healthy
           (CallSet "instance_list" Scenarios.healthy_items None)).
  - apply (nth_error_In _ 4). vm_compute. reflexivity.
  - reflexivity.
Defined.

Lemma write_failure_keeps_state_witness :
  (Scripted.play Scripted.all_arguments Scenarios.disk_full).1 =
  Err "write failed" ∧
  rd_instance_list
    (rdata (Scripted.play Scripted.all_arguments Scenarios.disk_full).2) =
  Some Scenarios.healthy_items.
Proof.
  destruct (write_failure_keeps_state Scripted.hash "PREPAID"
              "POSTPAID_BY_HOUR" Scripted.services Scripted.client
              Scripted.all_arguments Scenarios.disk_full "out.json"
              Scenarios.healthy_items "write failed")
    as (Hr & Hlist & _).
  - apply (nth_error_In _ 5). vm_compute. reflexivity.
  - split; [exact Hr | exact Hlist].
Defined.

Lemma panic_leaves_state_unchanged_witness :
  rdata (Scripted.play Scripted.all_arguments Scripted.nil_pay_mode).2 =
  Scripted.all_arguments ∧
  List.filter is_update
    (trace (Scripted.play Scripted.all_arguments Scripted.nil_pay_mode).2) =
  [].
Proof.
  destruct (panic_leaves_state_unchanged Scripted.hash "PREPAID"
              "POSTPAID_BY_HOUR" Scripted.services Scripted.client
              Scripted.all_arguments Scripted.nil_pay_mode)
    as (Hrd & Hup & _).
  - vm_compute. reflexivity.
  - split; [exact Hrd | exact Hup].
Defined.

Lemma empty_listing_witness :
  List.filter is_tag_call
    (trace (Scripted.play Scripted.no_arguments Scenarios.no_instances).2) =
  [] ∧
  rd_instance_list
    (rdata (Scripted.play Scripted.no_arguments Scenarios.no_instances).2) =
  Some [].
Proof.
  destruct (empty_listing Scripted.hash "PREPAID" "POSTPAID_BY_HOUR"
              Scripted.services Scripted.client Scripted.no_arguments
              Scenarios.no_instances "" (-1) "" "" 1)
    as (Htags & _ & _ & _ & Hok).
  - apply (nth_error_In _ 0). vm_compute. reflexivity.
  - split; [exact Htags|]. apply Hok. vm_compute. reflexivity.
Defined.

Lemma tag_calls_follow_listing_witness :
  (Some <$> omap tag_resource_id
              (trace (Scripted.play Scripted.no_arguments
                        Scripted.tags_down).2))
    `prefix_of` (InstanceId <$> Scripted.two_instances) ∧
  ∃ pre,
    trace (Scripted.play Scripted.no_arguments Scripted.tags_down).2 =
    pre ++ [Scripted.failed_tag_call].
Proof.
  destruct (tag_calls_follow_listing Scripted.hash "PREPAID"
              "POSTPAID_BY_HOUR" Scripted.services Scripted.client
              Scripted.no_arguments Scripted.tags_down "" (-1) "" "" 1
              Scripted.two_instances None)
    as (_ & Hpre & Hlast).
  - apply (nth_error_In _ 0). vm_compute. reflexivity.
  - split; [exact Hpre|].
    apply (Hlast Scripted.failed_tag_call "tags failed").
    + apply (nth_error_In _ 2). vm_compute. reflexivity.
    + reflexivity.
Defined.

Lemma resource_id_is_hash_of_instance_ids_witness :
  List.filter is_set_id
    (trace (Scripted.play Scripted.no_arguments Scripted.healthy).2) =
  [CallSetId "mssql-a-mssql-b"].
Proof.
  apply (resource_id_is_hash_of_instance_ids Scripted.hash "PREPAID"
           "POSTPAID_BY_HOUR" Scripted.services Scripted.client
           Scripted.no_arguments Scripted.healthy "" (-1) "" "" 1
           Scripted.two_instances None "mssql-a-mssql-b").
  - apply (nth_error_In _ 0). vm_compute. reflexivity.
  - apply (nth_error_In _ 3). vm_compute. reflexivity.
Defined.

Lemma handler_succeeds_witness :
  (Reliable.play Scripted.all_arguments 0%nat).1 = Ret tt ∧
  ∃ out ids,
    rd_instance_list (rdata (Reliable.play Scripted.all_arguments 0%nat).2) =
    Some out ∧
    length out = 2%nat ∧
    InstanceId <$> Scripted.two_instances = Some <$> ids ∧
    rd_Id (rdata (Reliable.play Scripted.all_arguments 0%nat).2) =
    Scripted.hash ids.
Proof.
  apply (handler_succeeds Scripted.hash "PREPAID" "POSTPAID_BY_HOUR"
           Reliable.services Scripted.client Scripted.all_arguments 0%nat
           Scripted.two_instances).
  - reflexivity.
  - repeat (constructor; [split; eexists; reflexivity|]). constructor.
  - reflexivity.
  - reflexivity.
  - reflexivity.
Defined.

Lemma stored_state_is_not_read_witness :
  rd_Id (rdata (Scripted.play Scripted.all_arguments Scripted.healthy).2) =
  rd_Id (rdata (Scripted.play Scenarios.refreshed Scripted.healthy).2) ∧
  rd_instance_list
    (rdata (Scripted.play Scripted.all_arguments Scripted.healthy).2) =
  rd_instance_list
    (rdata (Scripted.play Scenarios.refreshed Scripted.healthy).2).
Proof.
  apply (stored_state_is_not_read Scripted.hash "PREPAID" "POSTPAID_BY_HOUR"
           Scripted.services Scripted.client Scripted.all_arguments
           Scenarios.refreshed Scripted.healthy).
  - repeat split.
  - vm_compute. reflexivity.
Defined.

(** ** Concrete runs, in the world *)

Lemma project_id_zero_is_dropped_witness :
  cfg_project_id Scripted.default_project = Some 0 ∧
  ∃ res rest,
    trace (Scripted.play Scripted.default_project Scripted.healthy).2 =
    CallDescribeSqlserverInstances "" (-1) "" "" 1 res :: rest.
Proof.
  split; [reflexivity|].
  destruct (project_id_zero_is_dropped Scripted.hash "PREPAID"
              "POSTPAID_BY_HOUR" Scripted.services Scripted.client
              Scripted.default_project Scripted.healthy eq_refl)
    as (res & w1 & rest & _ & Htr & _).
  exists res, rest. exact Htr.
Defined.

Lemma tag_call_per_instance_witness :
  Forall3 (tag_call_of "ap-guangzhou") Scripted.two_instances
    Scenarios.owner_tag_calls Scenarios.owner_items ∧
  (Scripted.play Scripted.no_arguments Scripted.tags_down).1 =
  Err "tags failed".
Proof.
  split.
  - assert (E : List.filter is_tag_call
                  (trace (Reliable.play Scripted.no_arguments 0%nat).2) =
                Scenarios.owner_tag_calls) by (vm_compute; reflexivity).
    rewrite <- E.
    apply (proj1 (proj2 (proj2 (tag_call_per_instance Scripted.hash "PREPAID"
             "POSTPAID_BY_HOUR" Reliable.services Scripted.client
             Scripted.no_arguments 0%nat
             "" (-1) "" "" 1 Scripted.two_instances
             ltac:(apply (nth_error_In _ 0); vm_compute; reflexivity))))
           (CallSet "instance_list" Scenarios.owner_items None)).
    + apply (nth_error_In _ 4). vm_compute. reflexivity.
    + reflexivity.
  - apply (proj1 (proj2 (proj2 (proj2 (tag_call_per_instance Scripted.hash
             "PREPAID" "POSTPAID_BY_HOUR" Scripted.services Scripted.client
             Scripted.no_arguments Scripted.tags_down
             "" (-1) "" "" 1 Scripted.two_instances
             ltac:(apply (nth_error_In _ 0); vm_compute; reflexivity)))))
           Scripted.failed_tag_call).
    + apply (nth_error_In _ 2). vm_compute. reflexivity.
    + reflexivity.
Defined.

Lemma output_file_written_iff_configured_witness :
  ∃ wb,
    Scripted.files
      (world (Scripted.play Scripted.all_arguments Scripted.healthy).2) =
    Scripted.files wb ++ [("out.json", Scenarios.healthy_items)].
Proof.
  destruct (proj1 (proj2 (output_file_written_iff_configured Scripted.hash
              "PREPAID" "POSTPAID_BY_HOUR" Scripted.services Scripted.client
              Scripted.all_arguments Scripted.healthy))
              Scenarios.healthy_items "out.json")
    as (res & pre & wb & _ & _ & Hw).
  - apply (nth_error_In _ 4). vm_compute. reflexivity.
  - reflexivity.
  - discriminate.
  - exists wb. apply (f_equal snd) in Hw. cbn [snd] in Hw.
    unfold Scripted.play. rewrite <- Hw. reflexivity.
Defined.

Lemma set_failure_keeps_id_witness :
  (Scripted.play Scripted.all_arguments Scenarios.set_rejected).1 =
  Err "set failed" ∧
  rd_instance_list
    (rdata (Scripted.play Scripted.all_arguments Scenarios.set_rejected).2) =
  None ∧
  ∃ ids,
    InstanceId <$> Scripted.two_instances = Some <$> ids ∧
    rd_Id
      (rdata (Scripted.play Scripted.all_arguments Scenarios.set_rejected).2) =
    Scripted.hash ids.
Proof.
  destruct (set_failure_keeps_id Scripted.hash "PREPAID" "POSTPAID_BY_HOUR"
              Scripted.services Scripted.client Scripted.all_arguments
              Scenarios.set_rejected
              "mssql-a" 7 "vpc-26w7r56z" "subnet-lvlr6eeu" 1
              Scripted.two_instances None
              "instance_list" Scenarios.healthy_items "set failed")
    as (Hr & _ & _ & Hlist & ids & Hids & Hid & _).
  - apply (nth_error_In _ 0). vm_compute. reflexivity.
  - apply (nth_error_In _ 4). vm_compute. reflexivity.
  - split; [exact Hr|]. split; [exact Hlist|]. by exists ids.
Defined.
